(** * The agent runtime of [templates/ai-agent/agent.template.py]

    A shallow embedding of the message model, the safety wrapper, the
    dispatch pipeline ([BaseAgent.process_message]), the tool bridge
    ([BaseAgent.use_tool]), the life cycle ([start], [stop],
    [_process_messages]) and the example subclass [SpecializedAgent].

    Coroutines are embedded as state-passing functions that either return a
    value or raise a Python exception.  The registry [self.tools] is a
    [gmap]; message contents are association lists, because [str(content)]
    depends on the insertion order of a Python dict.  A string is a
    sequence of characters with code points below 256.

    A call of [process_message] or [use_tool] runs from its start to its
    end in one step: what other tasks could do at its [await] points is
    not part of the model.  The event loop appears as the number of
    [_process_messages] tasks that are alive and as the steps those tasks
    take, from the [while] test or from the timed wait on the queue in
    which a task is suspended. *)

From Stdlib Require Import ZArith String Ascii List Bool DecimalString.
From stdpp Require Import base option gmap strings.
Import ListNotations.

Set Warnings "-register-all".

Local Open Scope string_scope.
Local Open Scope Z_scope.

(** ** Python values carried by messages *)

Module Py.

(** The values that occur in [Dict[str, Any]] contents and tool results:
    [None], booleans, integers, strings, lists and string-keyed dicts
    (kept in insertion order). *)
Inductive value : Type :=
| VNone
| VBool (b : bool)
| VInt (z : Z)
| VStr (s : string)
| VList (l : list value)
| VDict (d : list (string * value)).

(** [d.get(k)]: the value stored under [k], [None] when [k] is absent. *)
Fixpoint lookup (k : string) (d : list (string * value)) : option value :=
  match d with
  | [] => None
  | (k', v) :: d' => if String.eqb k k' then Some v else lookup k d'
  end.

Definition get (d : list (string * value)) (k : string) : value :=
  match lookup k d with
  | Some v => v
  | None => VNone
  end.

(** [v == s] for a string literal [s]. *)
Definition eq_str (v : value) (s : string) : bool :=
  match v with
  | VStr s' => String.eqb s' s
  | _ => false
  end.

Definition dquote : ascii := ascii_of_nat 34.
Definition squote : ascii := ascii_of_nat 39.
Definition backslash : ascii := ascii_of_nat 92.

Fixpoint contains (c : ascii) (s : string) : bool :=
  match s with
  | EmptyString => false
  | String c' s' => Ascii.eqb c c' || contains c s'
  end.

Definition hex_digit (n : nat) : ascii :=
  match n with
  | 0%nat => "0" | 1%nat => "1" | 2%nat => "2" | 3%nat => "3"
  | 4%nat => "4" | 5%nat => "5" | 6%nat => "6" | 7%nat => "7"
  | 8%nat => "8" | 9%nat => "9" | 10%nat => "a" | 11%nat => "b"
  | 12%nat => "c" | 13%nat => "d" | 14%nat => "e" | _ => "f"
  end%char.

(** [c.isprintable()] for a character with code point [n] below 256: the
    controls (0-31, 127-159), the no-break space (160) and the soft hyphen
    (173) are not printable. *)
Definition isprintable (n : nat) : bool :=
  negb (Nat.ltb n 32 || (Nat.leb 127 n && Nat.leb n 160) || Nat.eqb n 173).

(** One character of [repr(str)], [q] being the quote in use: backslash
    and the quote are escaped, tab, newline and carriage return have
    their letters, every other character that is not printable is written
    as a two-digit hexadecimal escape, and printable characters are
    copied. *)
Definition escape_char (q c : ascii) : string :=
  let n := nat_of_ascii c in
  if Ascii.eqb c backslash || Ascii.eqb c q then String backslash (String c EmptyString)
  else if Nat.eqb n 9 then String backslash "t"
  else if Nat.eqb n 10 then String backslash "n"
  else if Nat.eqb n 13 then String backslash "r"
  else if negb (isprintable n) then
    String backslash (String "x" (String (hex_digit (Nat.div n 16))
                                    (String (hex_digit (Nat.modulo n 16)) EmptyString)))
  else String c EmptyString.

Fixpoint escape (q : ascii) (s : string) : string :=
  match s with
  | EmptyString => EmptyString
  | String c s' => escape_char q c ++ escape q s'
  end.

(** [repr(s)]: single quotes, unless [s] has a single quote and no
    double quote. *)
Definition repr_str (s : string) : string :=
  let q := if contains squote s && negb (contains dquote s) then dquote else squote in
  String q (escape q s ++ String q EmptyString).

Definition repr_int (z : Z) : string := NilZero.string_of_int (Z.to_int z).

Fixpoint join (sep : string) (l : list string) : string :=
  match l with
  | [] => EmptyString
  | [x] => x
  | x :: l' => x ++ sep ++ join sep l'
  end.

Fixpoint repr (v : value) : string :=
  match v with
  | VNone => "None"
  | VBool true => "True"
  | VBool false => "False"
  | VInt z => repr_int z
  | VStr s => repr_str s
  | VList l => "[" ++ join ", " (List.map repr l) ++ "]"
  | VDict d =>
      "{" ++ join ", " (List.map (fun kv => repr_str (fst kv) ++ ": " ++ repr (snd kv)) d) ++ "}"
  end.

(** [str(v)], which is also what an f-string field [{v}] renders. *)
Definition str (v : value) : string :=
  match v with
  | VStr s => s
  | _ => repr v
  end.

End Py.

Export Py (value, VNone, VBool, VInt, VStr, VList, VDict).

(** ** Messages and configuration *)

(** [class MessageType(Enum)] *)
Inductive MessageType : Type := REQUEST | RESPONSE | ERROR | NOTIFICATION.

Definition MessageType_value (t : MessageType) : string :=
  match t with
  | REQUEST => "request"
  | RESPONSE => "response"
  | ERROR => "error"
  | NOTIFICATION => "notification"
  end.

(** [class Priority(Enum)] *)
Inductive Priority : Type := LOW | MEDIUM | HIGH | CRITICAL.

Definition Priority_value (p : Priority) : Z :=
  match p with
  | LOW => 1
  | MEDIUM => 2
  | HIGH => 3
  | CRITICAL => 4
  end.

(** A [datetime] is a point on the clock, counted in ticks. *)
Definition datetime : Type := Z.

(** [@dataclass class AgentMessage].  The two defaulted fields that read the
    environment ([timestamp] from [datetime.now], [correlation_id] from
    [uuid.uuid4]) are filled in by the constructor functions below. *)
Record AgentMessage : Type := mkAgentMessage {
  sender_id : string;
  receiver_id : string;
  message_type : MessageType;
  content : list (string * value);
  timestamp : datetime;
  correlation_id : string;
  priority : Priority
}.

(** ** Exceptions *)

(** The classes of exception that matter to the [except] clauses of the
    source and to the text of an exception.  [TimeoutError] is
    [asyncio.TimeoutError].  [KeyError] is apart because
    its [str] is the [repr] of its argument.  [OtherException] stands for
    any other subclass of [Exception] that takes its [str] from
    [BaseException]; [BaseExceptionOnly] for the classes that derive from
    [BaseException] but not from [Exception] ([KeyboardInterrupt],
    [SystemExit], [asyncio.CancelledError]). *)
Inductive exception_class : Type :=
| ValueError
| NotImplementedError
| TimeoutError
| KeyError
| OtherException (name : string)
| BaseExceptionOnly (name : string).

(** An exception instance: its class, the one string argument it was
    built with, if any ([raise NotImplementedError] builds an instance
    without arguments), and, for a class that overrides [__str__] with a
    method that fails, the exception that [__str__] raises. *)
Inductive exn : Type := mkExn {
  exn_class : exception_class;
  exn_arg : option string;
  exn_str_raises : option exn
}.

(** [isinstance(e, Exception)] *)
Definition isinstance_Exception (e : exn) : bool :=
  match exn_class e with
  | BaseExceptionOnly _ => false
  | _ => true
  end.

(** What a call does: it returns a value or raises. *)
Inductive outcome (A : Type) : Type :=
| Returns (a : A)
| Raises (e : exn).

Arguments Returns {A} a.
Arguments Raises {A} e.

(** [str(e)], which is also what an f-string field [{e}] evaluates: it
    raises when [__str__] does; otherwise it is empty for an exception
    without argument, the [repr] of the argument for a [KeyError], and the
    argument itself for the other classes. *)
Definition str_exn (e : exn) : outcome string :=
  match exn_str_raises e with
  | Some r => Raises r
  | None =>
      Returns match exn_arg e with
              | None => EmptyString
              | Some a =>
                  match exn_class e with
                  | KeyError => Py.repr_str a
                  | _ => a
                  end
              end
  end.

(** ** Collaborators *)

(** Keyword arguments of a tool call. *)
Definition kwargs : Type := list (string * value).

(** A [langchain.tools.Tool], as far as [use_tool] looks at it: its name,
    the synchronous [run], and the asynchronous [arun] when the object has
    that attribute. *)
Record Tool : Type := mkTool {
  tool_name : string;
  run : kwargs -> outcome value;
  arun : option (kwargs -> outcome value)
}.

(** [class SafetyWrapper]: the rule table and the two checks.  A subclass
    or an injected object supplies other checks. *)
Record SafetyWrapper : Type := mkSafetyWrapper {
  rules : list (string * value);
  validate_input : AgentMessage -> outcome bool;
  validate_output : AgentMessage -> outcome bool
}.

(** [SafetyWrapper._default_rules] *)
Definition _default_rules : list (string * value) :=
  [ ("max_output_length", VInt 10000);
    ("forbidden_patterns", VList []);
    ("require_human_approval", VBool false);
    ("rate_limit", VInt 100) ].

(** [SafetyWrapper.__init__]: [rules or self._default_rules()], with the
    two checks of the source, which accept everything. *)
Definition SafetyWrapper__init__ (r : option (list (string * value))) : SafetyWrapper :=
  {| rules := match r with
              | Some ((_ :: _) as d) => d
              | _ => _default_rules
              end;
     validate_input := fun _ => Returns true;
     validate_output := fun _ => Returns true |}.

(** The entries of [memory.chat_memory]. *)
Inductive BaseMessage : Type :=
| HumanMessage (text : string)
| AIMessage (text : string).

(** The records handed to [self.logger], one constructor per call site. *)
Inductive log_record : Type :=
| LogStarted (agent : string)
| LogStopped (agent : string)
| LogErrorProcessing (e : exn)
| LogNotification (c : list (string * value))
| LogSending (m : AgentMessage)
| LogToolExecuted (name : string)
| LogToolError (name : string) (e : exn).

(** [@dataclass class AgentConfig].  [temperature] is a float that the
    runtime only passes on; it is left out. *)
Record AgentConfig : Type := mkAgentConfig {
  cfg_agent_id : string;
  cfg_name : string;
  cfg_description : string;
  cfg_model_name : string;
  cfg_max_tokens : Z;
  cfg_tools : list Tool;
  cfg_safety_enabled : bool;
  cfg_memory_enabled : bool;
  cfg_max_retries : Z
}.

(** ** The agent object *)

(** The attributes of [self] that no method of the source assigns after
    construction. *)
Record Agent : Type := mkAgent {
  agent_id : string;
  safety_wrapper : option SafetyWrapper;
  tools : gmap string Tool
}.

(** The attributes that change, together with what the agent does to its
    environment: [memory] is [None] when memory is disabled and the list
    of stored messages otherwise; [loop_tasks] counts the
    [_process_messages] tasks created and not yet finished; [tool_calls]
    records every tool invocation; [clock] is what [datetime.now] reads. *)
Record State : Type := mkState {
  memory : option (list BaseMessage);
  message_queue : list AgentMessage;
  is_running : bool;
  loop_tasks : nat;
  tool_calls : list (string * kwargs);
  log : list log_record;
  clock : datetime
}.

Definition set_memory (v : option (list BaseMessage)) (s : State) : State :=
  mkState v (message_queue s) (is_running s) (loop_tasks s) (tool_calls s) (log s) (clock s).
Definition set_message_queue (v : list AgentMessage) (s : State) : State :=
  mkState (memory s) v (is_running s) (loop_tasks s) (tool_calls s) (log s) (clock s).
Definition set_is_running (v : bool) (s : State) : State :=
  mkState (memory s) (message_queue s) v (loop_tasks s) (tool_calls s) (log s) (clock s).
Definition set_loop_tasks (v : nat) (s : State) : State :=
  mkState (memory s) (message_queue s) (is_running s) v (tool_calls s) (log s) (clock s).
Definition set_tool_calls (v : list (string * kwargs)) (s : State) : State :=
  mkState (memory s) (message_queue s) (is_running s) (loop_tasks s) v (log s) (clock s).
Definition set_log (v : list log_record) (s : State) : State :=
  mkState (memory s) (message_queue s) (is_running s) (loop_tasks s) (tool_calls s) v (clock s).

(** The clock moves on by [d] ticks; the agent's attributes stay. *)
Definition tick (d : Z) (s : State) : State :=
  mkState (memory s) (message_queue s) (is_running s) (loop_tasks s) (tool_calls s) (log s)
    (clock s + d).

(** ** Coroutines *)

(** A method body: from the state before to an outcome and the state
    after.  A raise keeps the effects made before it. *)
Definition M (A : Type) : Type := State -> outcome A * State.

Definition ret {A} (a : A) : M A := fun s => (Returns a, s).
Definition raise {A} (e : exn) : M A := fun s => (Raises e, s).
Definition bind {A B} (c : M A) (k : A -> M B) : M B :=
  fun s => match c s with
           | (Returns a, s') => k a s'
           | (Raises e, s') => (Raises e, s')
           end.

(** [await] of a collaborator that has no access to the agent. *)
Definition await {A} (o : outcome A) : M A := fun s => (o, s).

(** [try: body except Exception as e: handler(e)] *)
Definition try_except {A} (body : M A) (handler : exn -> M A) : M A :=
  fun s => match body s with
           | (Raises e, s') =>
               if isinstance_Exception e then handler e s' else (Raises e, s')
           | r => r
           end.

Definition modify (f : State -> State) : M unit := fun s => (Returns tt, f s).
Definition gets {A} (f : State -> A) : M A := fun s => (Returns (f s), s).

Declare Scope agent_scope.
Delimit Scope agent_scope with agent.
Notation "'let!' x ':=' c 'in' k" := (bind c (fun x => k))
  (at level 10, x name, c at level 100, k at level 200) : agent_scope.
Notation "c1 '>>' c2" := (bind c1 (fun _ => c2))
  (at level 100, c2 at level 200, right associativity) : agent_scope.
Local Open Scope agent_scope.

Definition logger (r : log_record) : M unit :=
  modify (fun s => set_log (log s ++ [r])%list s).

(** [self.memory.chat_memory.add_message(msg)] under [if self.memory:]. *)
Definition add_message_if_memory (msg : BaseMessage) : M unit :=
  modify (fun s => match memory s with
                   | Some l => set_memory (Some (l ++ [msg])%list) s
                   | None => s
                   end).

(** ** [class BaseAgent] *)

(** The two methods that subclasses override.  [process_message] calls
    them through [self], so the pipeline is parametrised by them. *)
Record AgentClass : Type := mkAgentClass {
  _handle_request : Agent -> AgentMessage -> M AgentMessage;
  _handle_notification : Agent -> AgentMessage -> M (option AgentMessage)
}.

(** [BaseAgent._init_tools]: [{tool.name: tool for tool in tools}]; a later
    tool replaces an earlier one of the same name. *)
Definition _init_tools (ts : list Tool) : gmap string Tool :=
  fold_left (fun m t => <[tool_name t := t]> m) ts ∅.

(** [BaseAgent._init_memory]: a [ConversationBufferMemory] with an empty
    chat history. *)
Definition _init_memory : list BaseMessage := [].

(** [BaseAgent.__init__], started when the clock shows [now]. *)
Definition BaseAgent__init__ (config : AgentConfig) (now : datetime) : Agent * State :=
  ( {| agent_id := cfg_agent_id config;
       safety_wrapper :=
         if cfg_safety_enabled config then Some (SafetyWrapper__init__ None) else None;
       tools := _init_tools (cfg_tools config) |},
    {| memory := if cfg_memory_enabled config then Some _init_memory else None;
       message_queue := [];
       is_running := false;
       loop_tasks := 0;
       tool_calls := [];
       log := [];
       clock := now |} ).

(** [BaseAgent.start]: sets the flag, logs, and creates a task running
    [_process_messages]. *)
Definition start (self : Agent) : M unit :=
  modify (set_is_running true) >>
  logger (LogStarted (agent_id self)) >>
  modify (fun s => set_loop_tasks (S (loop_tasks s)) s).

(** [BaseAgent.stop] *)
Definition stop (self : Agent) : M unit :=
  modify (set_is_running false) >>
  logger (LogStopped (agent_id self)).

(** [BaseAgent._create_error_response].  [timestamp] and [priority] are not
    passed, so the dataclass defaults apply: [datetime.now()] and
    [Priority.MEDIUM]. *)
Definition _create_error_response (self : Agent) (original_message : AgentMessage)
    (error : string) : M AgentMessage :=
  let! now := gets clock in
  ret {| sender_id := agent_id self;
         receiver_id := sender_id original_message;
         message_type := ERROR;
         content := [ ("error", VStr error);
                      ("original_message_id", VStr (correlation_id original_message)) ];
         timestamp := now;
         correlation_id := correlation_id original_message;
         priority := MEDIUM |}.

(** [await agent.message_queue.put(message)], as the [__main__] block does:
    the queue is unbounded, so the message goes to its end. *)
Definition queue_put (message : AgentMessage) : M unit :=
  modify (fun s => set_message_queue (message_queue s ++ [message])%list s).

(** [BaseAgent.send_message]: the hook only logs. *)
Definition send_message (self : Agent) (message : AgentMessage) : M unit :=
  logger (LogSending message).

(** The call of a tool in [use_tool]: [await tool.arun] when the tool has
    the attribute [arun], [tool.run] otherwise, with the keyword arguments
    passed through.  The call is recorded in [tool_calls]. *)
Definition invoke (name : string) (tool : Tool) (kw : kwargs) : M value :=
  modify (fun s => set_tool_calls (tool_calls s ++ [(name, kw)])%list s) >>
  await (match arun tool with
         | Some f => f kw
         | None => run tool kw
         end).

(** [BaseAgent.use_tool].  The [except] clause formats [e] into the log
    line before it logs and re-raises. *)
Definition use_tool (self : Agent) (name : string) (kw : kwargs) : M value :=
  match tools self !! name with
  | None => raise (mkExn ValueError (Some ("Tool " ++ name ++ " not found")) None)
  | Some tool =>
      try_except
        (let! result := invoke name tool kw in
         logger (LogToolExecuted name) >>
         ret result)
        (fun e =>
           let! _ := await (str_exn e) in
           logger (LogToolError name e) >>
           raise e)
  end.

(** [BaseAgent._handle_request]: [raise NotImplementedError]. *)
Definition BaseAgent_handle_request (self : Agent) (message : AgentMessage) : M AgentMessage :=
  raise (mkExn NotImplementedError None None).

(** [BaseAgent._handle_notification] *)
Definition BaseAgent_handle_notification (self : Agent) (message : AgentMessage)
    : M (option AgentMessage) :=
  logger (LogNotification (content message)) >>
  ret None.

Definition BaseAgent : AgentClass :=
  {| _handle_request := BaseAgent_handle_request;
     _handle_notification := BaseAgent_handle_notification |}.

Section Pipeline.

Variable cls : AgentClass.

(** The [try] block of [BaseAgent.process_message]. *)
Definition process_message_body (self : Agent) (message : AgentMessage)
    : M (option AgentMessage) :=
  (* Validate input *)
  match safety_wrapper self with
  | Some sw =>
      let! ok := await (validate_input sw message) in
      if ok then ret tt
      else raise (mkExn ValueError (Some "Message failed safety validation") None)
  | None => ret tt
  end >>
  (* Store in memory if enabled *)
  add_message_if_memory (HumanMessage (Py.str (VDict (content message)))) >>
  (* Process message based on type *)
  let! response :=
    match message_type message with
    | REQUEST =>
        let! r := _handle_request cls self message in
        ret (Some r)
    | NOTIFICATION => _handle_notification cls self message
    | _ => ret None
    end in
  (* Validate output *)
  match response, safety_wrapper self with
  | Some r, Some sw =>
      let! ok := await (validate_output sw r) in
      if ok then ret tt
      else raise (mkExn ValueError (Some "Response failed safety validation") None)
  | _, _ => ret tt
  end >>
  (* Store response in memory *)
  match response with
  | Some r => add_message_if_memory (AIMessage (Py.str (VDict (content r))))
  | None => ret tt
  end >>
  ret response.

(** [BaseAgent.process_message].  The [except] clause takes the text of
    [e] twice, for the log line and for the error message. *)
Definition process_message (self : Agent) (message : AgentMessage)
    : M (option AgentMessage) :=
  try_except
    (process_message_body self message)
    (fun e =>
       let! _ := await (str_exn e) in
       logger (LogErrorProcessing e) >>
       let! error := await (str_exn e) in
       let! r := _create_error_response self message error in
       ret (Some r)).

(** [await asyncio.wait_for(self.message_queue.get(), timeout=1.0)] when
    nothing is put during the wait: the head of the queue, or
    [TimeoutError] when the queue is empty. *)
Definition queue_get : M AgentMessage :=
  fun s => match message_queue s with
           | [] => (Raises (mkExn TimeoutError None None), s)
           | m :: q => (Returns m, set_message_queue q s)
           end.

(** The two [except] clauses of the loop: [asyncio.TimeoutError] goes
    round again, any other [Exception] is formatted into the log line and
    logged, and what is not an [Exception] leaves the loop. *)
Definition _process_messages_except (e : exn) : M unit :=
  match exn_class e with
  | TimeoutError => ret tt
  | _ => if isinstance_Exception e
         then let! _ := await (str_exn e) in
              logger (LogErrorProcessing e)
         else raise e
  end.

(** One pass through the body of the [while] loop of
    [BaseAgent._process_messages]: the value of [process_message] is
    not bound to anything. *)
Definition _process_messages_body (self : Agent) : M unit :=
  fun s =>
    match (let! message := queue_get in
           let! _ := process_message self message in
           ret tt) s with
    | (Raises e, s') => _process_messages_except e s'
    | r => r
    end.

(** [BaseAgent._process_messages], run on its own (nothing is put while
    it waits) for at most [fuel] passes of its [while] loop: [Some] of the
    way the coroutine ended, or [None] when it is still looping. *)
Fixpoint _process_messages (self : Agent) (fuel : nat) (s : State)
    : option (outcome unit) * State :=
  match fuel with
  | O => (None, s)
  | S n =>
      if is_running s then
        match _process_messages_body self s with
        | (Returns _, s') => _process_messages self n s'
        | (Raises e, s') => (Some (Raises e), s')
        end
      else (Some (Returns tt), s)
  end.

(** One turn of a [_process_messages] task that stands at the [while]
    test, with nothing put while it waits: the task ends when it sees the
    flag down or when an exception leaves the loop, and runs the body once
    otherwise. *)
Definition task_turn (self : Agent) (s : State) : State :=
  if is_running s then
    match _process_messages_body self s with
    | (Returns _, s') => s'
    | (Raises _, s') => set_loop_tasks (Nat.pred (loop_tasks s')) s'
    end
  else set_loop_tasks (Nat.pred (loop_tasks s)) s.

(** [fuel] turns of one task. *)
Fixpoint task_turns (self : Agent) (fuel : nat) (s : State) : State :=
  match fuel with
  | O => s
  | S n => task_turns self n (task_turn self s)
  end.

(** Where a [_process_messages] task can be found between two steps of
    the event loop: at the [while] test, or suspended in [wait_for] on an
    empty queue. *)
Inductive task_point : Type := AtWhile | InWaitFor.

(** One step of a task from where it stands, to where it stands next
    ([None] when the task has ended).  At the [while] test the task ends
    if the flag is down, suspends if the queue is empty, and otherwise
    takes the head of the queue and finishes the pass.  A suspended task
    does not look at the flag: it is woken by a message that was put in
    the meantime, which it takes and processes, or by the timeout; either
    way it then stands at the [while] test, unless an exception left the
    loop. *)
Definition task_step (self : Agent) (p : task_point) (s : State)
    : option task_point * State :=
  match p, is_running s, message_queue s with
  | AtWhile, false, _ => (None, set_loop_tasks (Nat.pred (loop_tasks s)) s)
  | AtWhile, true, [] => (Some InWaitFor, s)
  | _, _, _ =>
      match _process_messages_body self s with
      | (Returns _, s') => (Some AtWhile, s')
      | (Raises _, s') => (None, set_loop_tasks (Nat.pred (loop_tasks s')) s')
      end
  end.

End Pipeline.

(** ** [class SpecializedAgent(BaseAgent)] *)

(** [SpecializedAgent._analyze_data] *)
Definition _analyze_data (self : Agent) (data : value) : M (list (string * value)) :=
  ret [ ("analysis", VStr "completed"); ("results", VDict []) ].

(** [SpecializedAgent._perform_search] *)
Definition _perform_search (self : Agent) (query : value) : M (list (string * value)) :=
  match tools self !! "search" with
  | Some _ =>
      let! results := use_tool self "search" [("query", query)] in
      ret [ ("search_results", results) ]
  | None => ret [ ("error", VStr "Search tool not available") ]
  end.

(** [SpecializedAgent._handle_request] *)
Definition SpecializedAgent_handle_request (self : Agent) (message : AgentMessage)
    : M AgentMessage :=
  let request_type := Py.get (content message) "type" in
  let! result :=
    if Py.eq_str request_type "analyze" then
      _analyze_data self (Py.get (content message) "data")
    else if Py.eq_str request_type "search" then
      _perform_search self (Py.get (content message) "query")
    else ret [ ("error", VStr ("Unknown request type: " ++ Py.str request_type)) ] in
  let! now := gets clock in
  ret {| sender_id := agent_id self;
         receiver_id := sender_id message;
         message_type := RESPONSE;
         content := result;
         timestamp := now;
         correlation_id := correlation_id message;
         priority := MEDIUM |}.

Definition SpecializedAgent : AgentClass :=
  {| _handle_request := SpecializedAgent_handle_request;
     _handle_notification := BaseAgent_handle_notification |}.

(** ** Vocabulary of the properties *)

(** What the specification asks of an error message for [original] with
    reason [error], sent by [self]. *)
Definition is_error_response (self : Agent) (original : AgentMessage) (error : string)
    (msg : AgentMessage) : Prop :=
  message_type msg = ERROR /\
  sender_id msg = agent_id self /\
  receiver_id msg = sender_id original /\
  content msg = [ ("error", VStr error);
                  ("original_message_id", VStr (correlation_id original)) ] /\
  correlation_id msg = correlation_id original.

(** The safety wrapper lets [m] in: there is none, or its input check
    returns [True]. *)
Definition input_accepted (self : Agent) (m : AgentMessage) : Prop :=
  match safety_wrapper self with
  | Some sw => validate_input sw m = Returns true
  | None => True
  end.

(** The safety wrapper lets [r] out. *)
Definition output_accepted (self : Agent) (r : AgentMessage) : Prop :=
  match safety_wrapper self with
  | Some sw => validate_output sw r = Returns true
  | None => True
  end.

(** The handlers of a class keep to the kinds the pipeline may emit: the
    request handler returns only [RESPONSE] messages, the notification
    handler returns nothing or a [RESPONSE] message. *)
Definition handlers_respond (cls : AgentClass) : Prop :=
  (forall self m s r s', _handle_request cls self m s = (Returns r, s') ->
                         message_type r = RESPONSE) /\
  (forall self m s r s', _handle_notification cls self m s = (Returns (Some r), s') ->
                         message_type r = RESPONSE).

(** How a call of [process_message] may end, as far as the kind of its
    result goes: with no message, with a [RESPONSE] or with an [ERROR]; a
    call that raises returns no message. *)
Definition responds_or_errs (o : outcome (option AgentMessage)) : Prop :=
  match o with
  | Returns None => True
  | Returns (Some r) =>
      (message_type r = RESPONSE \/ message_type r = ERROR) /\
      message_type r <> REQUEST /\ message_type r <> NOTIFICATION
  | Raises e => True
  end.

(** [r] reached the outbound hook: [send_message] was called with it. *)
Definition handed_to_transport (r : AgentMessage) (s : State) : Prop :=
  In (LogSending r) (log s).

(** [n] calls of [start] in a row. *)
Definition start_times (self : Agent) (n : nat) (s : State) : State :=
  Nat.iter n (fun s0 => snd (start self s0)) s.

(** [l'] is [l] with entries added at its end. *)
Definition extends {A} (l l' : list A) : Prop := exists d, l' = (l ++ d)%list.

(** A step that leaves alone what the event loop owns: queue, flag, tasks
    and clock are as before, the log and the record of tool calls have
    only grown at their ends. *)
Definition frame (s s' : State) : Prop :=
  message_queue s' = message_queue s /\
  is_running s' = is_running s /\
  loop_tasks s' = loop_tasks s /\
  clock s' = clock s /\
  extends (log s) (log s') /\
  extends (tool_calls s) (tool_calls s').

(** A step within [frame] that also leaves the memory alone. *)
Definition quiet (s s' : State) : Prop :=
  frame s s' /\ memory s' = memory s.

(** Every run of the computation is a step of [R]. *)
Definition keeps {A} (R : State -> State -> Prop) (c : M A) : Prop :=
  forall s, R s (snd (c s)).

(** Both handlers of the class are [quiet]. *)
Definition handlers_quiet (cls : AgentClass) : Prop :=
  (forall self m, keeps quiet (_handle_request cls self m)) /\
  (forall self m, keeps quiet (_handle_notification cls self m)).

(** The memory after [add_message_if_memory msg]. *)
Definition remembered (msg : BaseMessage) (mem : option (list BaseMessage))
    : option (list BaseMessage) :=
  match mem with
  | Some l => Some (l ++ [msg])%list
  | None => None
  end.

Ltac unfold_M :=
  unfold logger, add_message_if_memory in *;
  unfold bind, ret, raise, await, modify, gets in *.

Ltac case_step :=
  match goal with
  | H : context [match ?x with _ => _ end] |- _ =>
      lazymatch x with
      | context [match _ with _ => _ end] => fail
      | _ => destruct x eqn:?; simpl in H
      end
  end.

(** ** Sample agents and messages *)

Module Examples.

(** The configuration of the [__main__] block of the source. *)
Definition config : AgentConfig :=
  {| cfg_agent_id := "agent-001";
     cfg_name := "ResearchAgent";
     cfg_description := "Agent for research and analysis";
     cfg_model_name := "gpt-4";
     cfg_max_tokens := 2000;
     cfg_tools := [];
     cfg_safety_enabled := true;
     cfg_memory_enabled := true;
     cfg_max_retries := 3 |}.

Definition agent : Agent := fst (BaseAgent__init__ config 0).
Definition state0 : State := snd (BaseAgent__init__ config 0).

(** A safety wrapper that turns every input away. *)
Definition rejecting_wrapper : SafetyWrapper :=
  {| rules := _default_rules;
     validate_input := fun _ => Returns false;
     validate_output := fun _ => Returns true |}.

Definition guarded_agent : Agent :=
  {| agent_id := "agent-001";
     safety_wrapper := Some rejecting_wrapper;
     tools := tools agent |}.

(** A search tool whose run is interrupted from the keyboard. *)
Definition interrupted_search : Tool :=
  {| tool_name := "search";
     run := fun _ => Raises (mkExn (BaseExceptionOnly "KeyboardInterrupt") None None);
     arun := None |}.


Definition request (c : list (string * value)) : AgentMessage :=
  {| sender_id := "user-001";
     receiver_id := "agent-001";
     message_type := REQUEST;
     content := c;
     timestamp := 0;
     correlation_id := "c0ffee";
     priority := MEDIUM |}.

(** The test message of the [__main__] block. *)
Definition analyze_request : AgentMessage :=
  request [ ("type", VStr "analyze"); ("data", VDict [("sample", VStr "data")]) ].

Definition bogus_request : AgentMessage := request [ ("type", VStr "bogus") ].

Definition search_request : AgentMessage :=
  request [ ("type", VStr "search"); ("query", VStr "x") ].

Definition config_with (ts : list Tool) : AgentConfig :=
  {| cfg_agent_id := "agent-001";
     cfg_name := "ResearchAgent";
     cfg_description := "Agent for research and analysis";
     cfg_model_name := "gpt-4";
     cfg_max_tokens := 2000;
     cfg_tools := ts;
     cfg_safety_enabled := true;
     cfg_memory_enabled := true;
     cfg_max_retries := 3 |}.

(** A search tool with both call forms: the asynchronous one returns the
    query it was given, the synchronous one a marker. *)
Definition echo_search : Tool :=
  {| tool_name := "search";
     run := fun _ => Returns (VStr "sync");
     arun := Some (fun kw => Returns (VList [Py.get kw "query"])) |}.

(** A search tool whose backend is down. *)
Definition failing_search : Tool :=
  {| tool_name := "search";
     run := fun _ => Raises (mkExn (OtherException "ConnectionError") (Some "backend down") None);
     arun := None |}.

Definition echo_agent : Agent := fst (BaseAgent__init__ (config_with [echo_search]) 0).

(** A safety wrapper that lets every input in and no response out. *)
Definition censoring_wrapper : SafetyWrapper :=
  {| rules := _default_rules;
     validate_input := fun _ => Returns true;
     validate_output := fun _ => Returns false |}.

Definition censoring_agent : Agent :=
  {| agent_id := "agent-001";
     safety_wrapper := Some censoring_wrapper;
     tools := tools agent |}.

(** A safety wrapper whose input check fails with an exception. *)
Definition throttling_wrapper : SafetyWrapper :=
  {| rules := _default_rules;
     validate_input :=
       fun _ => Raises (mkExn (OtherException "RateLimitError") (Some "rate limit exceeded") None);
     validate_output := fun _ => Returns true |}.

Definition throttled_agent : Agent :=
  {| agent_id := "agent-001";
     safety_wrapper := Some throttling_wrapper;
     tools := tools agent |}.

Definition message_of_kind (k : MessageType) (c : list (string * value)) : AgentMessage :=
  {| sender_id := "user-001";
     receiver_id := "agent-001";
     message_type := k;
     content := c;
     timestamp := 0;
     correlation_id := "c0ffee";
     priority := CRITICAL |}.

(** An exception of a class whose [__str__] fails. *)
Definition unprintable : exn :=
  mkExn (OtherException "BrokenError") None
    (Some (mkExn (OtherException "RuntimeError") (Some "cannot render") None)).

(** A search tool that fails with it. *)
Definition broken_search : Tool :=
  {| tool_name := "search";
     run := fun _ => Raises unprintable;
     arun := None |}.

Definition broken_agent : Agent := fst (BaseAgent__init__ (config_with [broken_search]) 0).

(** A safety wrapper whose input check fails with it. *)
Definition garbling_wrapper : SafetyWrapper :=
  {| rules := _default_rules;
     validate_input := fun _ => Raises unprintable;
     validate_output := fun _ => Returns true |}.

Definition garbled_agent : Agent :=
  {| agent_id := "agent-001";
     safety_wrapper := Some garbling_wrapper;
     tools := tools agent |}.

(** A search request that names no query. *)
Definition bare_search_request : AgentMessage := request [ ("type", VStr "search") ].

End Examples.

(** * Properties *)

(** ** Reasoning about coroutines *)

Lemma bind_returns {A B} (c : M A) (k : A -> M B) s a s' :
  c s = (Returns a, s') -> bind c k s = k a s'.
Proof. intros H. unfold bind. now rewrite H. Qed.

Lemma bind_raises {A B} (c : M A) (k : A -> M B) s e s' :
  c s = (Raises e, s') -> bind c k s = (Raises e, s').
Proof. intros H. unfold bind. now rewrite H. Qed.

Lemma try_except_returns {A} (body : M A) h s a s' :
  body s = (Returns a, s') -> try_except body h s = (Returns a, s').
Proof. intros H. unfold try_except. now rewrite H. Qed.

Lemma try_except_caught {A} (body : M A) h s e s' :
  body s = (Raises e, s') -> isinstance_Exception e = true ->
  try_except body h s = h e s'.
Proof. intros H He. unfold try_except. now rewrite H, He. Qed.

Lemma try_except_escapes {A} (body : M A) h s e s' :
  body s = (Raises e, s') -> isinstance_Exception e = false ->
  try_except body h s = (Raises e, s').
Proof. intros H He. unfold try_except. now rewrite H, He. Qed.

(** The message that [_create_error_response] builds when the clock shows
    [now]. *)
Lemma _create_error_response_eq self original error s :
  _create_error_response self original error s =
  (Returns {| sender_id := agent_id self;
              receiver_id := sender_id original;
              message_type := ERROR;
              content := [ ("error", VStr error);
                           ("original_message_id", VStr (correlation_id original)) ];
              timestamp := clock s;
              correlation_id := correlation_id original;
              priority := MEDIUM |}, s).
Proof. reflexivity. Qed.

(** The [except] clause of [process_message], run on an [Exception] [e]
    with text [error] in state [s1]. *)
Lemma process_message_caught cls self m s e s1 error :
  process_message_body cls self m s = (Raises e, s1) ->
  isinstance_Exception e = true ->
  str_exn e = Returns error ->
  process_message cls self m s =
  (Returns (Some {| sender_id := agent_id self;
                    receiver_id := sender_id m;
                    message_type := ERROR;
                    content := [ ("error", VStr error);
                                 ("original_message_id", VStr (correlation_id m)) ];
                    timestamp := clock s1;
                    correlation_id := correlation_id m;
                    priority := MEDIUM |}),
   set_log (log s1 ++ [LogErrorProcessing e])%list s1).
Proof.
  intros Hb He Ht. unfold process_message.
  rewrite (try_except_caught _ _ _ _ _ Hb He). unfold_M. rewrite Ht. reflexivity.
Qed.

(** The [except] clause run on an [Exception] whose text cannot be taken:
    formatting the log line fails, and that failure leaves the call. *)
Lemma process_message_unprintable cls self m s e s1 r :
  process_message_body cls self m s = (Raises e, s1) ->
  isinstance_Exception e = true ->
  str_exn e = Raises r ->
  process_message cls self m s = (Raises r, s1).
Proof.
  intros Hb He Ht. unfold process_message.
  rewrite (try_except_caught _ _ _ _ _ Hb He). unfold_M. rewrite Ht. reflexivity.
Qed.

(** The ways [process_message] can end, read off the [try] block. *)
Lemma process_message_cases cls self m s :
  match process_message_body cls self m s with
  | (Returns x, s1) => process_message cls self m s = (Returns x, s1)
  | (Raises e, s1) =>
      if isinstance_Exception e
      then match str_exn e with
           | Returns error =>
               exists msg s2,
                 process_message cls self m s = (Returns (Some msg), s2) /\
                 is_error_response self m error msg
           | Raises r => process_message cls self m s = (Raises r, s1)
           end
      else process_message cls self m s = (Raises e, s1)
  end.
Proof.
  destruct (process_message_body cls self m s) as [[x|e] s1] eqn:Hb.
  - now apply try_except_returns.
  - destruct (isinstance_Exception e) eqn:He.
    + destruct (str_exn e) as [error|r] eqn:Ht.
      * rewrite (process_message_caught _ _ _ _ _ _ _ Hb He Ht).
        eexists _, _. split; [reflexivity|]. repeat split.
      * now apply (process_message_unprintable _ _ _ _ e).
    + now apply try_except_escapes.
Qed.

(** What [process_message] raises came out of its [try] block past the
    [except] clause, or out of the [except] clause while it took the text
    of an [Exception]. *)
Lemma process_message_raises cls self m s e' s' :
  process_message cls self m s = (Raises e', s') ->
  exists e,
    process_message_body cls self m s = (Raises e, s') /\
    ((isinstance_Exception e = false /\ e' = e) \/
     (isinstance_Exception e = true /\ str_exn e = Raises e')).
Proof.
  intros H. pose proof (process_message_cases cls self m s) as Hc.
  destruct (process_message_body cls self m s) as [[x|e1] s1].
  - congruence.
  - exists e1. destruct (isinstance_Exception e1) eqn:He.
    + destruct (str_exn e1) as [error|r] eqn:Ht.
      * destruct Hc as (msg & s2 & Hc & _). congruence.
      * rewrite Hc in H. inversion H; subst. auto.
    + rewrite Hc in H. inversion H; subst. auto.
Qed.

(** ** The text of exceptions and values *)

Example str_exn_KeyError :
  str_exn (mkExn KeyError (Some "missing") None) = Returns "'missing'".
Proof. reflexivity. Qed.

Example str_exn_unprintable :
  str_exn Examples.unprintable =
  Raises (mkExn (OtherException "RuntimeError") (Some "cannot render") None).
Proof. reflexivity. Qed.

Example repr_str_no_break_space :
  Py.repr_str (String (ascii_of_nat 160) EmptyString) =
  String Py.squote (String Py.backslash ("xa0" ++ String Py.squote EmptyString)).
Proof. reflexivity. Qed.

Example SafetyWrapper__init__keeps_rules :
  rules (SafetyWrapper__init__ (Some [("rate_limit", Py.VInt 5)])) =
  [("rate_limit", Py.VInt 5)] /\
  rules (SafetyWrapper__init__ (Some [])) = _default_rules /\
  rules (SafetyWrapper__init__ None) = _default_rules.
Proof. repeat split. Qed.

(** An [Exception] without a text that the input check raises leaves
    [process_message] as the failure of its [__str__]; raised by a tool,
    it is replaced by that failure in [use_tool], and [process_message]
    reports the failure. *)
Example process_message_unprintable_input :
  fst (process_message SpecializedAgent Examples.garbled_agent Examples.analyze_request
         Examples.state0) =
  Raises (mkExn (OtherException "RuntimeError") (Some "cannot render") None).
Proof. vm_compute. reflexivity. Qed.

Example process_message_unprintable_tool :
  match fst (process_message SpecializedAgent Examples.broken_agent Examples.search_request
               Examples.state0) with
  | Returns (Some r) =>
      message_type r = ERROR /\
      Py.get (content r) "error" = Py.VStr "cannot render"
  | _ => False
  end.
Proof. vm_compute. split; reflexivity. Qed.

(** ** What the handlers return *)

(** A message returned by the [try] block was returned by the handler for
    the kind of the incoming message. *)
Lemma process_message_body_returns cls self m s r s' :
  process_message_body cls self m s = (Returns (Some r), s') ->
  (message_type m = REQUEST /\
   exists s0 s1, _handle_request cls self m s0 = (Returns r, s1)) \/
  (message_type m = NOTIFICATION /\
   exists s0 s1, _handle_notification cls self m s0 = (Returns (Some r), s1)).
Proof.
  unfold process_message_body. unfold_M. intros H.
  repeat case_step; try congruence;
    repeat match goal with
           | H : (_, _) = (_, _) |- _ => inversion H; clear H; subst
           end;
    try congruence; eauto 6.
Qed.

Lemma BaseAgent_handle_notification_none self m s :
  BaseAgent_handle_notification self m s =
  (Returns None, set_log (log s ++ [LogNotification (content m)])%list s).
Proof. reflexivity. Qed.

Lemma SpecializedAgent_handle_request_kind self m s r s' :
  SpecializedAgent_handle_request self m s = (Returns r, s') ->
  message_type r = RESPONSE /\ correlation_id r = correlation_id m /\
  sender_id r = agent_id self /\ receiver_id r = sender_id m.
Proof.
  unfold SpecializedAgent_handle_request. unfold_M. intros H.
  repeat case_step; try congruence;
    inversion H; subst; simpl; auto.
Qed.

Lemma BaseAgent_handlers_respond : handlers_respond BaseAgent.
Proof.
  split; simpl; intros self m s r s' H.
  - discriminate H.
  - rewrite BaseAgent_handle_notification_none in H. discriminate H.
Qed.

Lemma SpecializedAgent_handlers_respond : handlers_respond SpecializedAgent.
Proof.
  split; simpl; intros self m s r s' H.
  - now apply SpecializedAgent_handle_request_kind in H.
  - rewrite BaseAgent_handle_notification_none in H. discriminate H.
Qed.

Lemma process_message_kind cls self m s :
  handlers_respond cls -> responds_or_errs (fst (process_message cls self m s)).
Proof.
  intros [Hreq Hnot].
  pose proof (process_message_cases cls self m s) as Hc.
  destruct (process_message_body cls self m s) as [[[r|]|e] s1] eqn:Hb.
  - rewrite Hc. simpl.
    assert (message_type r = RESPONSE) as ->.
    { apply process_message_body_returns in Hb.
      destruct Hb as [[_ (s0 & s2 & H)]|[_ (s0 & s2 & H)]]; eauto. }
    repeat split; auto; discriminate.
  - now rewrite Hc.
  - destruct (isinstance_Exception e) eqn:He.
    + destruct (str_exn e) as [error|r0].
      * destruct Hc as (msg & s2 & -> & Hk & _). simpl. rewrite Hk.
        repeat split; auto; discriminate.
      * now rewrite Hc.
    + now rewrite Hc.
Qed.

(** The safety wrapper that [BaseAgent.__init__] installs turns nothing
    away, so every message reaches the handlers of an agent built by the
    constructor. *)
Lemma constructed_agent_accepts_input config now m :
  input_accepted (fst (BaseAgent__init__ config now)) m.
Proof.
  unfold input_accepted. simpl. now destruct (cfg_safety_enabled config).
Qed.

Lemma constructed_agent_accepts_output config now r :
  output_accepted (fst (BaseAgent__init__ config now)) r.
Proof.
  unfold output_accepted. simpl. now destruct (cfg_safety_enabled config).
Qed.

(** ** Claims *)

(** C1. For every message, [process_message] of a [BaseAgent] and of a
    [SpecializedAgent], with any safety wrapper, memory setting and tool
    registry, returns [None], a message of kind [RESPONSE] or a message of
    kind [ERROR], and never one of kind [REQUEST] or [NOTIFICATION].  (A
    call that raises returns no message.) *)
Theorem process_message_returns_response_or_error :
  (forall self m s, responds_or_errs (fst (process_message BaseAgent self m s))) /\
  (forall self m s, responds_or_errs (fst (process_message SpecializedAgent self m s))).
Proof.
  split; intros self m s; apply process_message_kind.
  - exact BaseAgent_handlers_respond.
  - exact SpecializedAgent_handlers_respond.
Qed.

(** C2. [_create_error_response] returns, without touching the state, a
    message of kind [ERROR] sent by the agent to the sender of the
    original, whose content holds the reason and the original correlation
    id, and which carries that correlation id.  Every [ERROR] message that
    [process_message] of a [BaseAgent] or a [SpecializedAgent] returns is
    such a message. *)
Theorem error_response_fields self m s :
  (forall reason, exists msg,
      _create_error_response self m reason s = (Returns msg, s) /\
      is_error_response self m reason msg) /\
  (forall cls r s',
      cls = BaseAgent \/ cls = SpecializedAgent ->
      process_message cls self m s = (Returns (Some r), s') ->
      message_type r = ERROR ->
      exists reason, is_error_response self m reason r).
Proof.
  split.
  - intros reason. eexists. split; [apply _create_error_response_eq|].
    repeat split.
  - intros cls r s' Hcls Hp Hk.
    assert (handlers_respond cls) as [Hreq Hnot].
    { destruct Hcls as [-> | ->];
        [exact BaseAgent_handlers_respond | exact SpecializedAgent_handlers_respond]. }
    pose proof (process_message_cases cls self m s) as Hc.
    destruct (process_message_body cls self m s) as [[x|e] s1] eqn:Hb.
    + rewrite Hc in Hp. inversion Hp; subst.
      apply process_message_body_returns in Hb.
      destruct Hb as [[_ (s0 & s2 & H)]|[_ (s0 & s2 & H)]];
        [apply Hreq in H | apply Hnot in H]; congruence.
    + destruct (isinstance_Exception e) eqn:He.
      * destruct (str_exn e) as [error|r0].
        -- destruct Hc as (msg & s2 & Hc & Herr). rewrite Hc in Hp.
           inversion Hp; subst. eauto.
        -- congruence.
      * congruence.
Qed.

Lemma error_response_fields_witness :
  exists reason,
    is_error_response Examples.agent Examples.bogus_request reason
      {| sender_id := "agent-001";
         receiver_id := "user-001";
         message_type := ERROR;
         content := [ ("error", VStr EmptyString); ("original_message_id", VStr "c0ffee") ];
         timestamp := 0;
         correlation_id := "c0ffee";
         priority := MEDIUM |}.
Proof.
  apply (proj2 (error_response_fields Examples.agent Examples.bogus_request Examples.state0)
           BaseAgent _
           (set_log [LogErrorProcessing (mkExn NotImplementedError None None)]
              (set_memory (Some [HumanMessage "{'type': 'bogus'}"]) Examples.state0))).
  - left. reflexivity.
  - vm_compute. reflexivity.
  - reflexivity.
Defined.

(** C3. When the safety wrapper's [validate_input] returns [False] for a
    message, [process_message] returns an [ERROR] message whose error text
    is "Message failed safety validation"; the memory, the record of tool
    calls and the queue are as before the call. *)
Theorem rejected_input_is_error cls self sw m s :
  safety_wrapper self = Some sw ->
  validate_input sw m = Returns false ->
  exists msg s',
    process_message cls self m s = (Returns (Some msg), s') /\
    is_error_response self m "Message failed safety validation" msg /\
    memory s' = memory s /\
    tool_calls s' = tool_calls s /\
    message_queue s' = message_queue s.
Proof.
  intros Hsw Hrej.
  assert (process_message_body cls self m s =
          (Raises (mkExn ValueError (Some "Message failed safety validation") None), s)) as Hb.
  { unfold process_message_body. rewrite Hsw. unfold_M. now rewrite Hrej. }
  rewrite (process_message_caught _ _ _ _ _ _ _ Hb eq_refl eq_refl).
  eexists _, _. split; [reflexivity|].
  repeat split.
Qed.

Lemma rejected_input_is_error_witness :
  exists msg s',
    process_message SpecializedAgent Examples.guarded_agent Examples.analyze_request
      Examples.state0 = (Returns (Some msg), s') /\
    is_error_response Examples.guarded_agent Examples.analyze_request
      "Message failed safety validation" msg /\
    memory s' = memory Examples.state0 /\
    tool_calls s' = tool_calls Examples.state0 /\
    message_queue s' = message_queue Examples.state0.
Proof.
  apply (rejected_input_is_error SpecializedAgent Examples.guarded_agent
           Examples.rejecting_wrapper Examples.analyze_request Examples.state0);
    reflexivity.
Defined.

(** C4. [use_tool] with a name that is not in the registry raises
    [ValueError("Tool <name> not found")] and leaves the whole state, in
    particular the memory and the queue, as it was. *)
Theorem use_tool_unregistered self name kw s :
  tools self !! name = None ->
  use_tool self name kw s =
    (Raises (mkExn ValueError (Some ("Tool " ++ name ++ " not found")) None), s) /\
  memory (snd (use_tool self name kw s)) = memory s /\
  message_queue (snd (use_tool self name kw s)) = message_queue s /\
  tool_calls (snd (use_tool self name kw s)) = tool_calls s.
Proof.
  intros Hn. unfold use_tool. rewrite Hn. repeat split.
Qed.

Lemma use_tool_unregistered_witness :
  use_tool Examples.agent "missing" [] Examples.state0 =
    (Raises (mkExn ValueError (Some "Tool missing not found") None), Examples.state0) /\
  memory (snd (use_tool Examples.agent "missing" [] Examples.state0)) = Some [] /\
  message_queue (snd (use_tool Examples.agent "missing" [] Examples.state0)) = [] /\
  tool_calls (snd (use_tool Examples.agent "missing" [] Examples.state0)) = [].
Proof.
  apply (use_tool_unregistered Examples.agent "missing" [] Examples.state0).
  reflexivity.
Defined.

(** C5. For a message whose content has a ["type"] other than "analyze"
    and "search", [SpecializedAgent._handle_request] returns a [RESPONSE]
    message with content [{"error": "Unknown request type: <type>"}] and
    the correlation id of the request, without raising; and when the
    message is a [REQUEST] that the safety wrapper lets in and whose
    response it lets out, [process_message] returns that response. *)
Theorem unknown_request_type_is_response self m s :
  Py.eq_str (Py.get (content m) "type") "analyze" = false ->
  Py.eq_str (Py.get (content m) "type") "search" = false ->
  let response :=
    {| sender_id := agent_id self;
       receiver_id := sender_id m;
       message_type := RESPONSE;
       content := [ ("error",
                     VStr ("Unknown request type: " ++ Py.str (Py.get (content m) "type"))) ];
       timestamp := clock s;
       correlation_id := correlation_id m;
       priority := MEDIUM |} in
  SpecializedAgent_handle_request self m s = (Returns response, s) /\
  (message_type m = REQUEST -> input_accepted self m -> output_accepted self response ->
   fst (process_message SpecializedAgent self m s) = Returns (Some response)).
Proof.
  intros Ha Hs response.
  assert (forall s0, clock s0 = clock s ->
                     SpecializedAgent_handle_request self m s0 = (Returns response, s0)) as Hh.
  { intros s0 Hc. unfold SpecializedAgent_handle_request. rewrite Ha, Hs.
    unfold_M. subst response. now rewrite Hc. }
  split; [now apply Hh|].
  intros Hk Hin Hout.
  unfold process_message, try_except, process_message_body.
  unfold input_accepted, output_accepted in *.
  rewrite Hk. change (_handle_request SpecializedAgent) with SpecializedAgent_handle_request.
  destruct (safety_wrapper self) as [sw|]; unfold_M.
  - rewrite Hin. rewrite Hh by (destruct (memory s); reflexivity).
    rewrite Hout. reflexivity.
  - rewrite Hh by (destruct (memory s); reflexivity). reflexivity.
Qed.

Lemma unknown_request_type_is_response_witness :
  SpecializedAgent_handle_request Examples.agent Examples.bogus_request Examples.state0 =
    (Returns {| sender_id := "agent-001";
                receiver_id := "user-001";
                message_type := RESPONSE;
                content := [ ("error", VStr "Unknown request type: bogus") ];
                timestamp := 0;
                correlation_id := "c0ffee";
                priority := MEDIUM |}, Examples.state0).
Proof.
  apply (unknown_request_type_is_response Examples.agent Examples.bogus_request
           Examples.state0); reflexivity.
Defined.

(** ** The life cycle and the loop *)

Lemma start_eq self s :
  start self s =
  (Returns tt,
   set_loop_tasks (S (loop_tasks s))
     (set_log (log s ++ [LogStarted (agent_id self)])%list (set_is_running true s))).
Proof. reflexivity. Qed.

Lemma start_times_S self n s :
  start_times self (S n) s = snd (start self (start_times self n s)).
Proof. reflexivity. Qed.

Lemma start_times_loop_tasks self n s :
  loop_tasks (start_times self n s) = (n + loop_tasks s)%nat.
Proof.
  induction n as [|n IH]; [reflexivity|].
  rewrite start_times_S, start_eq. simpl. now rewrite IH.
Qed.

Lemma start_times_is_running self n s :
  is_running (start_times self (S n) s) = true.
Proof. rewrite start_times_S, start_eq. reflexivity. Qed.

Lemma start_times_message_queue self n s :
  message_queue (start_times self n s) = message_queue s.
Proof.
  induction n as [|n IH]; [reflexivity|].
  rewrite start_times_S, start_eq. simpl. exact IH.
Qed.

(** A task that finds the flag up and the queue empty times out and goes
    round again: the state is as before. *)
Lemma task_turn_idle cls self s :
  is_running s = true -> message_queue s = [] -> task_turn cls self s = s.
Proof.
  intros Hr Hq. unfold task_turn, _process_messages_body, queue_get. unfold_M.
  now rewrite Hr, Hq.
Qed.

Lemma task_turns_idle cls self n s :
  is_running s = true -> message_queue s = [] -> task_turns cls self n s = s.
Proof.
  intros Hr Hq. induction n as [|n IH]; [reflexivity|].
  simpl. now rewrite task_turn_idle.
Qed.

(** C7, as the code has it. One pass of the loop over a queue [m :: q]
    takes [m] off the queue, runs [process_message] on it and keeps only
    the state that call leaves: the returned response, [None] or error
    message is dropped, and [send_message] is not called.  (When
    [process_message] raises there is no result, and the [except] clauses
    of the loop decide how the pass ends.) *)
Theorem loop_discards_the_result cls self m q s :
  _process_messages_body cls self (set_message_queue (m :: q) s) =
    match process_message cls self m (set_message_queue q s) with
    | (Returns _, s') => (Returns tt, s')
    | (Raises e, s') => _process_messages_except e s'
    end /\
  (forall fuel,
      is_running s = true ->
      _process_messages cls self (S fuel) (set_message_queue (m :: q) s) =
        match process_message cls self m (set_message_queue q s) with
        | (Returns _, s') => _process_messages cls self fuel s'
        | (Raises e, s') =>
            match _process_messages_except e s' with
            | (Returns _, s'') => _process_messages cls self fuel s''
            | (Raises r, s'') => (Some (Raises r), s'')
            end
        end).
Proof.
  assert (_process_messages_body cls self (set_message_queue (m :: q) s) =
          match process_message cls self m (set_message_queue q s) with
          | (Returns _, s') => (Returns tt, s')
          | (Raises e, s') => _process_messages_except e s'
          end) as Hbody; [|split; [exact Hbody|]].
  2:{ intros fuel Hr. simpl _process_messages.
      change (is_running (set_message_queue (m :: q) s)) with (is_running s).
      rewrite Hr, Hbody.
      now destruct (process_message cls self m (set_message_queue q s)) as [[x|e] s']. }
  unfold _process_messages_body, queue_get. unfold_M.
  cbn [message_queue set_message_queue].
  change (set_message_queue q (set_message_queue (m :: q) s)) with (set_message_queue q s).
  now destruct (process_message cls self m (set_message_queue q s)) as [[x|e] s'].
Qed.

(** C7, as stated, fails: a running [SpecializedAgent] with the sample
    request in its queue computes a response, and after the loop has taken
    the request that response has reached neither the outbound hook nor
    the queue. *)
Lemma loop_drops_the_response :
  let s := snd (queue_put Examples.analyze_request
                  (snd (start Examples.agent Examples.state0))) in
  let s' := task_turn SpecializedAgent Examples.agent s in
  exists r,
    fst (process_message SpecializedAgent Examples.agent Examples.analyze_request
           (set_message_queue [] s)) = Returns (Some r) /\
    message_queue s = [Examples.analyze_request] /\
    message_queue s' = [] /\
    ~ handed_to_transport r s' /\
    log s' = [LogStarted "agent-001"].
Proof.
  eexists. split; [vm_compute; reflexivity|].
  split; [reflexivity|]. split; [reflexivity|].
  split; [|reflexivity].
  unfold handed_to_transport. vm_compute. intros [H|[]]. discriminate H.
Qed.

(** ** The error responder and the error path *)

(** C8, as the code has it. [_create_error_response] changes nothing, and
    two calls with the same original message and reason agree on every
    field except [timestamp], which each call takes from the clock at the
    moment it runs; calls made at the same clock reading build equal
    messages. *)
Theorem create_error_response_up_to_timestamp self m reason s1 s2 :
  exists r1 r2,
    _create_error_response self m reason s1 = (Returns r1, s1) /\
    _create_error_response self m reason s2 = (Returns r2, s2) /\
    sender_id r1 = sender_id r2 /\
    receiver_id r1 = receiver_id r2 /\
    message_type r1 = message_type r2 /\
    content r1 = content r2 /\
    correlation_id r1 = correlation_id r2 /\
    priority r1 = priority r2 /\
    timestamp r1 = clock s1 /\
    timestamp r2 = clock s2 /\
    (clock s1 = clock s2 -> r1 = r2).
Proof.
  eexists _, _.
  split; [apply _create_error_response_eq|].
  split; [apply _create_error_response_eq|].
  repeat split. simpl. intros ->. reflexivity.
Qed.

(** C8, as stated, fails: the same original message and the same reason
    give different messages once the clock has moved by one tick. *)
Lemma create_error_response_reads_the_clock :
  fst (_create_error_response Examples.agent Examples.bogus_request "boom" Examples.state0)
  <> fst (_create_error_response Examples.agent Examples.bogus_request "boom"
            (tick 1 Examples.state0)).
Proof. vm_compute. intros H. inversion H. Qed.




(** C10. A [REQUEST] that reaches the request handler of a plain
    [BaseAgent] (the safety wrapper lets it in) ends in [raise
    NotImplementedError]; [process_message] returns an [ERROR] message
    whose error text is [str(NotImplementedError())], the empty string, and
    which carries the sender and correlation id of the request. *)
Theorem unimplemented_handler_gives_empty_error self m s :
  message_type m = REQUEST ->
  input_accepted self m ->
  str_exn (mkExn NotImplementedError None None) = Returns EmptyString /\
  exists msg s',
    process_message BaseAgent self m s = (Returns (Some msg), s') /\
    is_error_response self m EmptyString msg /\
    content msg = [ ("error", VStr EmptyString);
                    ("original_message_id", VStr (correlation_id m)) ].
Proof.
  intros Hk Hin. split; [reflexivity|].
  assert (exists s1, process_message_body BaseAgent self m s =
                     (Raises (mkExn NotImplementedError None None), s1)) as [s1 Hb].
  { unfold process_message_body, input_accepted in *. rewrite Hk.
    destruct (safety_wrapper self) as [sw|]; unfold_M; [rewrite Hin|];
      eexists; reflexivity. }
  rewrite (process_message_caught _ _ _ _ _ _ _ Hb eq_refl eq_refl).
  eexists _, _. split; [reflexivity|]. repeat split.
Qed.

Lemma unimplemented_handler_gives_empty_error_witness :
  str_exn (mkExn NotImplementedError None None) = Returns EmptyString /\
  exists msg s',
    process_message BaseAgent Examples.agent Examples.bogus_request Examples.state0 =
      (Returns (Some msg), s') /\
    is_error_response Examples.agent Examples.bogus_request EmptyString msg /\
    content msg = [ ("error", VStr EmptyString); ("original_message_id", VStr "c0ffee") ].
Proof.
  apply (unimplemented_handler_gives_empty_error Examples.agent Examples.bogus_request
           Examples.state0); reflexivity.
Defined.

(** * Further properties of the runtime *)

(** ** Steps that stay within a relation *)

Section Keeps.

Context (R : State -> State -> Prop).
Hypothesis R_refl : forall s, R s s.
Hypothesis R_trans : forall s1 s2 s3, R s1 s2 -> R s2 s3 -> R s1 s3.

Lemma keeps_ret {A} (a : A) : keeps R (ret a).
Proof. intros s. apply R_refl. Qed.

Lemma keeps_raise {A} (e : exn) : keeps R (@raise A e).
Proof. intros s. apply R_refl. Qed.

Lemma keeps_await {A} (o : outcome A) : keeps R (await o).
Proof. intros s. apply R_refl. Qed.

Lemma keeps_gets {A} (f : State -> A) : keeps R (gets f).
Proof. intros s. apply R_refl. Qed.

Lemma keeps_bind {A B} (c : M A) (k : A -> M B) :
  keeps R c -> (forall a, keeps R (k a)) -> keeps R (bind c k).
Proof.
  intros Hc Hk s. unfold bind. specialize (Hc s).
  destruct (c s) as [[a|e] s1]; simpl in *.
  - eapply R_trans; [exact Hc | apply Hk].
  - exact Hc.
Qed.

Lemma keeps_try_except {A} (body : M A) (h : exn -> M A) :
  keeps R body -> (forall e, keeps R (h e)) -> keeps R (try_except body h).
Proof.
  intros Hb Hh s. unfold try_except. specialize (Hb s).
  destruct (body s) as [[a|e] s1]; simpl in *.
  - exact Hb.
  - destruct (isinstance_Exception e); simpl.
    + eapply R_trans; [exact Hb | apply Hh].
    + exact Hb.
Qed.

End Keeps.

Lemma extends_refl {A} (l : list A) : extends l l.
Proof. exists []. now rewrite app_nil_r. Qed.

Lemma extends_trans {A} (l1 l2 l3 : list A) :
  extends l1 l2 -> extends l2 l3 -> extends l1 l3.
Proof.
  intros [d1 ->] [d2 ->]. exists (d1 ++ d2)%list. now rewrite app_assoc.
Qed.

Lemma extends_snoc {A} (l : list A) x : extends l (l ++ [x])%list.
Proof. now exists [x]. Qed.

Lemma frame_refl s : frame s s.
Proof. repeat split; apply extends_refl. Qed.

Lemma frame_trans s1 s2 s3 : frame s1 s2 -> frame s2 s3 -> frame s1 s3.
Proof.
  intros (Hq & Hr & Ht & Hc & Hl & Hk) (Hq' & Hr' & Ht' & Hc' & Hl' & Hk').
  repeat split; try congruence; eapply extends_trans; eassumption.
Qed.

Lemma quiet_refl s : quiet s s.
Proof. split; [apply frame_refl | reflexivity]. Qed.

Lemma quiet_trans s1 s2 s3 : quiet s1 s2 -> quiet s2 s3 -> quiet s1 s3.
Proof.
  intros [H1 M1] [H2 M2]. split; [eapply frame_trans; eassumption | congruence].
Qed.

Lemma quiet_frame s s' : quiet s s' -> frame s s'.
Proof. now intros [H _]. Qed.

Lemma keeps_quiet_frame {A} (c : M A) : keeps quiet c -> keeps frame c.
Proof. intros H s. apply quiet_frame, H. Qed.

Lemma logger_quiet r : keeps quiet (logger r).
Proof.
  intros s. unfold logger, modify. simpl.
  repeat split; try apply extends_refl. apply extends_snoc.
Qed.

Lemma add_message_if_memory_frame msg : keeps frame (add_message_if_memory msg).
Proof.
  intros s. unfold add_message_if_memory, modify. simpl.
  destruct (memory s); repeat split; apply extends_refl.
Qed.

Lemma add_message_if_memory_memory msg s :
  memory (snd (add_message_if_memory msg s)) = remembered msg (memory s).
Proof.
  unfold add_message_if_memory, modify, remembered. simpl.
  now destruct (memory s) eqn:E; simpl.
Qed.

Lemma invoke_quiet name tool kw : keeps quiet (invoke name tool kw).
Proof.
  unfold invoke. apply keeps_bind; try apply quiet_trans.
  - intros s. unfold modify. simpl.
    repeat split; try apply extends_refl. apply extends_snoc.
  - intros _. apply keeps_await, quiet_refl.
Qed.

Lemma use_tool_quiet self name kw : keeps quiet (use_tool self name kw).
Proof.
  unfold use_tool. destruct (tools self !! name) as [tool|].
  - apply keeps_try_except; try apply quiet_trans.
    + apply keeps_bind; try apply quiet_trans; [apply invoke_quiet|].
      intros v. apply keeps_bind; try apply quiet_trans; [apply logger_quiet|].
      intros _. apply keeps_ret, quiet_refl.
    + intros e. apply keeps_bind; try apply quiet_trans;
        [apply keeps_await, quiet_refl|].
      intros _. apply keeps_bind; try apply quiet_trans; [apply logger_quiet|].
      intros _. apply keeps_raise, quiet_refl.
  - apply keeps_raise, quiet_refl.
Qed.

(** ** What the handlers and the pipeline leave alone *)

Lemma BaseAgent_handlers_quiet : handlers_quiet BaseAgent.
Proof.
  split; intros self m; simpl.
  - apply keeps_raise, quiet_refl.
  - unfold BaseAgent_handle_notification.
    apply keeps_bind; try apply quiet_trans; [apply logger_quiet|].
    intros _. apply keeps_ret, quiet_refl.
Qed.

Lemma _perform_search_quiet self query : keeps quiet (_perform_search self query).
Proof.
  unfold _perform_search. destruct (tools self !! "search").
  - apply keeps_bind; try apply quiet_trans; [apply use_tool_quiet|].
    intros v. apply keeps_ret, quiet_refl.
  - apply keeps_ret, quiet_refl.
Qed.

Lemma SpecializedAgent_handle_request_quiet self m :
  keeps quiet (SpecializedAgent_handle_request self m).
Proof.
  unfold SpecializedAgent_handle_request.
  apply keeps_bind; try apply quiet_trans.
  - destruct (Py.eq_str _ "analyze"); [apply keeps_ret, quiet_refl|].
    destruct (Py.eq_str _ "search"); [apply _perform_search_quiet|].
    apply keeps_ret, quiet_refl.
  - intros result. apply keeps_bind; try apply quiet_trans.
    + apply keeps_gets, quiet_refl.
    + intros now. apply keeps_ret, quiet_refl.
Qed.

Lemma SpecializedAgent_handlers_quiet : handlers_quiet SpecializedAgent.
Proof.
  split; intros self m; simpl.
  - apply SpecializedAgent_handle_request_quiet.
  - apply BaseAgent_handlers_quiet.
Qed.

Lemma _create_error_response_quiet self m reason :
  keeps quiet (_create_error_response self m reason).
Proof. intros s. rewrite _create_error_response_eq. apply quiet_refl. Qed.

Lemma process_message_body_frame cls self m :
  handlers_quiet cls -> keeps frame (process_message_body cls self m).
Proof.
  intros [Hreq Hnot]. unfold process_message_body.
  apply keeps_bind; try apply frame_trans.
  { destruct (safety_wrapper self) as [sw|]; [|apply keeps_ret, frame_refl].
    apply keeps_bind; try apply frame_trans; [apply keeps_await, frame_refl|].
    intros [|]; [apply keeps_ret | apply keeps_raise]; apply frame_refl. }
  intros _. apply keeps_bind; try apply frame_trans;
    [apply add_message_if_memory_frame|].
  intros _. apply keeps_bind; try apply frame_trans.
  { destruct (message_type m); try (apply keeps_ret, frame_refl).
    - apply keeps_bind; try apply frame_trans.
      + apply keeps_quiet_frame, Hreq.
      + intros r. apply keeps_ret, frame_refl.
    - apply keeps_quiet_frame, Hnot. }
  intros response. apply keeps_bind; try apply frame_trans.
  { destruct response as [r|]; [|apply keeps_ret, frame_refl].
    destruct (safety_wrapper self) as [sw|]; [|apply keeps_ret, frame_refl].
    apply keeps_bind; try apply frame_trans; [apply keeps_await, frame_refl|].
    intros [|]; [apply keeps_ret | apply keeps_raise]; apply frame_refl. }
  intros _. apply keeps_bind; try apply frame_trans.
  { destruct response as [r|];
      [apply add_message_if_memory_frame | apply keeps_ret, frame_refl]. }
  intros _. apply keeps_ret, frame_refl.
Qed.

Lemma process_message_frame cls self m :
  handlers_quiet cls -> keeps frame (process_message cls self m).
Proof.
  intros Hq. unfold process_message.
  apply keeps_try_except; try apply frame_trans.
  - now apply process_message_body_frame.
  - intros e. apply keeps_bind; try apply frame_trans;
      [apply keeps_await, frame_refl|].
    intros _. apply keeps_bind; try apply frame_trans.
    + apply keeps_quiet_frame, logger_quiet.
    + intros _. apply keeps_bind; try apply frame_trans;
        [apply keeps_await, frame_refl|].
      intros error. apply keeps_bind; try apply frame_trans.
      * apply keeps_quiet_frame, _create_error_response_quiet.
      * intros r. apply keeps_ret, frame_refl.
Qed.

(** The error path of [process_message] leaves the memory as the [try]
    block left it. *)
Lemma process_message_memory cls self m s :
  memory (snd (process_message cls self m s)) =
  memory (snd (process_message_body cls self m s)).
Proof.
  unfold process_message, try_except.
  destruct (process_message_body cls self m s) as [[x|e] s1]; [reflexivity|].
  destruct (isinstance_Exception e); [|reflexivity].
  unfold_M. destruct (str_exn e); reflexivity.
Qed.

Local Opaque Py.str.

(** The memory after the [try] block of [process_message]: untouched when
    the input check stopped the call, the input added when no response
    came out, the input and the response added otherwise. *)
Lemma process_message_body_memory cls self m s :
  handlers_quiet cls ->
  let human := HumanMessage (Py.str (VDict (content m))) in
  let o := fst (process_message_body cls self m s) in
  let s' := snd (process_message_body cls self m s) in
  (memory s' = memory s /\ exists e, o = Raises e) \/
  (memory s' = remembered human (memory s) /\ (o = Returns None \/ exists e, o = Raises e)) \/
  (exists r, o = Returns (Some r) /\
             memory s' = remembered (AIMessage (Py.str (VDict (content r))))
                           (remembered human (memory s))).
Proof.
  intros [Hreq Hnot] human o s'. subst o s' human.
  destruct (process_message_body cls self m s) as [o s'] eqn:H. simpl fst; simpl snd.
  unfold process_message_body in H. unfold_M.
  repeat case_step;
    repeat match goal with
           | H : (_, _) = (_, _) |- _ => inversion H; clear H; subst
           end;
    repeat match goal with
           | E : _handle_request cls ?a ?b ?x = (_, _) |- _ =>
               let Q := fresh "Q" in
               pose proof (proj2 (Hreq a b x)) as Q; rewrite E in Q; simpl in Q; clear E
           | E : _handle_notification cls ?a ?b ?x = (_, _) |- _ =>
               let Q := fresh "Q" in
               pose proof (proj2 (Hnot a b x)) as Q; rewrite E in Q; simpl in Q; clear E
           end;
    unfold remembered; simpl in *.
  all: try solve [ left; split; [congruence | eauto] ].
  all: try solve [ right; left; split; [congruence | eauto] ].
  all: try solve [ right; right; eexists; split; [reflexivity | congruence] ].
Qed.

(** ** The tool registry *)

Lemma _init_tools_snoc ts t :
  _init_tools (ts ++ [t]) = <[tool_name t := t]> (_init_tools ts).
Proof. unfold _init_tools. now rewrite fold_left_app. Qed.

Lemma _init_tools_lookup_None ts n :
  _init_tools ts !! n = None <-> Forall (fun t => tool_name t <> n) ts.
Proof.
  induction ts as [|t ts IH] using rev_ind.
  - split; [constructor | intros _; apply lookup_empty].
  - rewrite _init_tools_snoc, Forall_app, lookup_insert_None, IH.
    split.
    + intros [H1 H2]. split; [exact H1|]. constructor; [exact H2 | constructor].
    + intros [H1 H2]. split; [exact H1|]. now inversion H2.
Qed.

(** X1. The registry built from the configured tools holds a name exactly
    when some configured tool has it, and of several tools with one name
    the last in the list is the one registered. *)
Theorem init_tools_registers_last ts n :
  (_init_tools ts !! n = None <-> Forall (fun t => tool_name t <> n) ts) /\
  (forall ts1 t ts2,
      ts = (ts1 ++ t :: ts2)%list ->
      tool_name t = n ->
      Forall (fun t' => tool_name t' <> n) ts2 ->
      _init_tools ts !! n = Some t).
Proof.
  split; [apply _init_tools_lookup_None|].
  intros ts1 t ts2 -> <-. revert ts1 t.
  induction ts2 as [|x ts2 IH] using rev_ind; intros ts1 t Hall.
  - rewrite _init_tools_snoc. apply lookup_insert_eq.
  - apply Forall_app in Hall as [Hall Hx]. inversion Hx; subst.
    change (ts1 ++ t :: ts2 ++ [x])%list with (ts1 ++ (t :: ts2) ++ [x])%list.
    rewrite app_assoc, _init_tools_snoc, lookup_insert_ne by assumption.
    now apply IH.
Qed.

Lemma init_tools_registers_last_witness :
  _init_tools [Examples.failing_search; Examples.echo_search; Examples.interrupted_search]
    !! "search" = Some Examples.interrupted_search.
Proof.
  apply (proj2 (init_tools_registers_last
                  [Examples.failing_search; Examples.echo_search; Examples.interrupted_search]
                  "search")
           [Examples.failing_search; Examples.echo_search] Examples.interrupted_search []).
  - reflexivity.
  - reflexivity.
  - constructor.
Defined.

(** ** Calling a registered tool *)



(** ** Search requests *)

(** X3. A search request to an agent without a "search" tool is answered
    with a [RESPONSE] whose content is [{"error": "Search tool not
    available"}]; nothing is raised, no tool is called and the state is as
    before. *)
Theorem search_without_tool_is_answered self m s :
  Py.get (content m) "type" = VStr "search" ->
  tools self !! "search" = None ->
  SpecializedAgent_handle_request self m s =
  (Returns {| sender_id := agent_id self;
              receiver_id := sender_id m;
              message_type := RESPONSE;
              content := [ ("error", VStr "Search tool not available") ];
              timestamp := clock s;
              correlation_id := correlation_id m;
              priority := MEDIUM |}, s).
Proof.
  intros Ht Hn. unfold SpecializedAgent_handle_request, _perform_search.
  rewrite Ht, Hn. reflexivity.
Qed.

Lemma search_without_tool_is_answered_witness :
  SpecializedAgent_handle_request Examples.agent Examples.search_request Examples.state0 =
  (Returns {| sender_id := "agent-001";
              receiver_id := "user-001";
              message_type := RESPONSE;
              content := [ ("error", VStr "Search tool not available") ];
              timestamp := 0;
              correlation_id := "c0ffee";
              priority := MEDIUM |}, Examples.state0).
Proof.
  apply (search_without_tool_is_answered Examples.agent Examples.search_request
           Examples.state0); reflexivity.
Defined.

(** X4. A search request to an agent with a "search" tool calls that tool
    once, with the single keyword argument [query] set to the request's
    "query" entry ([None] when the request has none), and wraps the
    tool's value as [{"search_results": value}] in a [RESPONSE] that
    carries the request's correlation id. *)
Theorem search_with_tool_wraps_the_result self tool m v s :
  Py.get (content m) "type" = VStr "search" ->
  tools self !! "search" = Some tool ->
  match arun tool with
  | Some f => f [("query", Py.get (content m) "query")]
  | None => run tool [("query", Py.get (content m) "query")]
  end = Returns v ->
  SpecializedAgent_handle_request self m s =
  (Returns {| sender_id := agent_id self;
              receiver_id := sender_id m;
              message_type := RESPONSE;
              content := [ ("search_results", v) ];
              timestamp := clock s;
              correlation_id := correlation_id m;
              priority := MEDIUM |},
   set_log (log s ++ [LogToolExecuted "search"])%list
     (set_tool_calls
        (tool_calls s ++ [("search", [("query", Py.get (content m) "query")])])%list s)).
Proof.
  intros Ht Hs Hv. unfold SpecializedAgent_handle_request, _perform_search.
  rewrite Ht, Hs. simpl Py.eq_str. cbv iota.
  unfold use_tool. rewrite Hs. unfold try_except, invoke. unfold_M.
  rewrite Hv. reflexivity.
Qed.

Lemma search_with_tool_wraps_the_result_witness :
  fst (SpecializedAgent_handle_request Examples.echo_agent Examples.bare_search_request
         Examples.state0) =
  Returns {| sender_id := "agent-001";
             receiver_id := "user-001";
             message_type := RESPONSE;
             content := [ ("search_results", VList [VNone]) ];
             timestamp := 0;
             correlation_id := "c0ffee";
             priority := MEDIUM |}.
Proof.
  rewrite (search_with_tool_wraps_the_result Examples.echo_agent Examples.echo_search
             Examples.bare_search_request (VList [VNone]) Examples.state0);
    reflexivity.
Defined.



(** ** Paths through the pipeline *)

(** X6. When the safety wrapper lets a request in and turns the handler's
    response away, [process_message] returns an [ERROR] message with the
    text "Response failed safety validation" instead of the response; the
    state is the one the handler left, with one log record added, so the
    rejected response is not written to memory. *)
Theorem rejected_output_is_error cls self sw m r s s2 :
  safety_wrapper self = Some sw ->
  validate_input sw m = Returns true ->
  message_type m = REQUEST ->
  _handle_request cls self m
    (snd (add_message_if_memory (HumanMessage (Py.str (VDict (content m)))) s))
  = (Returns r, s2) ->
  validate_output sw r = Returns false ->
  exists msg,
    process_message cls self m s =
      (Returns (Some msg),
       set_log (log s2 ++ [LogErrorProcessing
                             (mkExn ValueError (Some "Response failed safety validation") None)])%list
         s2) /\
    is_error_response self m "Response failed safety validation" msg.
Proof.
  intros Hsw Hin Hk Hh Hout.
  assert (process_message_body cls self m s =
          (Raises (mkExn ValueError (Some "Response failed safety validation") None), s2)) as Hb.
  { unfold process_message_body. rewrite Hsw, Hk. unfold_M. simpl snd in Hh.
    rewrite Hin. cbv beta iota. rewrite Hh. cbv beta iota. rewrite Hout. reflexivity. }
  rewrite (process_message_caught _ _ _ _ _ _ _ Hb eq_refl eq_refl).
  eexists. split; [reflexivity|]. repeat split.
Qed.

Lemma rejected_output_is_error_witness :
  exists msg,
    process_message SpecializedAgent Examples.censoring_agent Examples.analyze_request
      Examples.state0 =
      (Returns (Some msg),
       set_log [LogErrorProcessing
                  (mkExn ValueError (Some "Response failed safety validation") None)]
         (set_memory
            (Some [HumanMessage (Py.str (VDict (content Examples.analyze_request)))])
            Examples.state0)) /\
    is_error_response Examples.censoring_agent Examples.analyze_request
      "Response failed safety validation" msg.
Proof.
  apply (rejected_output_is_error SpecializedAgent Examples.censoring_agent
           Examples.censoring_wrapper Examples.analyze_request
           {| sender_id := "agent-001";
              receiver_id := "user-001";
              message_type := RESPONSE;
              content := [ ("analysis", VStr "completed"); ("results", VDict []) ];
              timestamp := 0;
              correlation_id := "c0ffee";
              priority := MEDIUM |}
           Examples.state0
           (set_memory
              (Some [HumanMessage (Py.str (VDict (content Examples.analyze_request)))])
              Examples.state0)); reflexivity.
Defined.

(** X7. A message of kind [RESPONSE] or [ERROR] that the safety wrapper
    lets in is recorded in memory and gets no reply: whatever the class of
    the agent, no handler runs and [process_message] returns [None]. *)
Theorem terminal_kinds_get_no_reply cls self m s :
  message_type m = RESPONSE \/ message_type m = ERROR ->
  input_accepted self m ->
  process_message cls self m s =
  (Returns None, snd (add_message_if_memory (HumanMessage (Py.str (VDict (content m)))) s)).
Proof.
  intros Hk Hin. apply try_except_returns.
  unfold process_message_body, input_accepted in *.
  destruct (safety_wrapper self) as [sw|]; unfold_M; [rewrite Hin|];
    destruct Hk as [-> | ->]; reflexivity.
Qed.

Lemma terminal_kinds_get_no_reply_witness :
  process_message BaseAgent Examples.agent
    (Examples.message_of_kind ERROR [("error", VStr "boom")]) Examples.state0 =
  (Returns None,
   set_memory (Some [HumanMessage (Py.str (VDict [("error", VStr "boom")]))])
     Examples.state0).
Proof.
  apply (terminal_kinds_get_no_reply BaseAgent Examples.agent
           (Examples.message_of_kind ERROR [("error", VStr "boom")]) Examples.state0).
  - right. reflexivity.
  - reflexivity.
Defined.

(** X8. A [NOTIFICATION] that the safety wrapper lets in is recorded in
    memory and logged, and gets no reply, by a [BaseAgent] as well as by a
    [SpecializedAgent], which inherits the handler. *)
Theorem notification_is_logged_not_answered cls self m s :
  cls = BaseAgent \/ cls = SpecializedAgent ->
  message_type m = NOTIFICATION ->
  input_accepted self m ->
  process_message cls self m s =
  (Returns None,
   snd (logger (LogNotification (content m))
          (snd (add_message_if_memory (HumanMessage (Py.str (VDict (content m)))) s)))).
Proof.
  intros Hcls Hk Hin. apply try_except_returns.
  unfold process_message_body, input_accepted in *. rewrite Hk.
  assert (_handle_notification cls = BaseAgent_handle_notification) as ->
      by (destruct Hcls as [-> | ->]; reflexivity).
  unfold BaseAgent_handle_notification.
  destruct (safety_wrapper self) as [sw|]; unfold_M; [rewrite Hin|]; reflexivity.
Qed.

Lemma notification_is_logged_not_answered_witness :
  process_message SpecializedAgent Examples.agent
    (Examples.message_of_kind NOTIFICATION [("event", VStr "ping")]) Examples.state0 =
  (Returns None,
   set_log [LogNotification [("event", VStr "ping")]]
     (set_memory (Some [HumanMessage (Py.str (VDict [("event", VStr "ping")]))])
        Examples.state0)).
Proof.
  apply (notification_is_logged_not_answered SpecializedAgent Examples.agent
           (Examples.message_of_kind NOTIFICATION [("event", VStr "ping")])
           Examples.state0).
  - right. reflexivity.
  - reflexivity.
  - reflexivity.
Defined.

(** X9. An "analyze" request that the safety wrapper lets in, and whose
    response it lets out, is answered with the fixed content
    [{"analysis": "completed", "results": {}}] whatever its "data" entry
    is, also when it has none; request and response are added to the
    memory in that order, and no tool is called. *)
Theorem analyze_request_is_completed self m s :
  message_type m = REQUEST ->
  Py.get (content m) "type" = VStr "analyze" ->
  input_accepted self m ->
  let response :=
    {| sender_id := agent_id self;
       receiver_id := sender_id m;
       message_type := RESPONSE;
       content := [ ("analysis", VStr "completed"); ("results", VDict []) ];
       timestamp := clock s;
       correlation_id := correlation_id m;
       priority := MEDIUM |} in
  output_accepted self response ->
  fst (process_message SpecializedAgent self m s) = Returns (Some response) /\
  memory (snd (process_message SpecializedAgent self m s)) =
    remembered (AIMessage (Py.str (VDict (content response))))
      (remembered (HumanMessage (Py.str (VDict (content m)))) (memory s)) /\
  tool_calls (snd (process_message SpecializedAgent self m s)) = tool_calls s /\
  log (snd (process_message SpecializedAgent self m s)) = log s.
Proof.
  intros Hk Ht Hin response Hout.
  unfold process_message, try_except, process_message_body.
  unfold input_accepted, output_accepted in *. rewrite Hk.
  change (_handle_request SpecializedAgent) with SpecializedAgent_handle_request.
  unfold SpecializedAgent_handle_request, _analyze_data. rewrite Ht.
  simpl Py.eq_str. cbv iota. unfold remembered.
  destruct (safety_wrapper self) as [sw|]; unfold_M; [rewrite Hin|].
  - replace (clock _) with (clock s) by (destruct (memory s); reflexivity).
    fold response. rewrite Hout. simpl.
    destruct (memory s) eqn:Hm; simpl; rewrite ?Hm; repeat split.
  - destruct (memory s) eqn:Hm; simpl; rewrite ?Hm; repeat split.
Qed.

Lemma analyze_request_is_completed_witness :
  fst (process_message SpecializedAgent Examples.agent
         (Examples.request [("type", VStr "analyze")]) Examples.state0) =
  Returns (Some {| sender_id := "agent-001";
                   receiver_id := "user-001";
                   message_type := RESPONSE;
                   content := [ ("analysis", VStr "completed"); ("results", VDict []) ];
                   timestamp := 0;
                   correlation_id := "c0ffee";
                   priority := MEDIUM |}).
Proof.
  apply (analyze_request_is_completed Examples.agent
           (Examples.request [("type", VStr "analyze")]) Examples.state0);
    reflexivity.
Defined.

(** ** What every call of the pipeline guarantees *)

Lemma SpecializedAgent_handle_request_priority self m s r s' :
  SpecializedAgent_handle_request self m s = (Returns r, s') -> priority r = MEDIUM.
Proof.
  unfold SpecializedAgent_handle_request. unfold_M. intros H.
  repeat case_step; try congruence; inversion H; subst; reflexivity.
Qed.

Lemma source_classes_quiet cls :
  cls = BaseAgent \/ cls = SpecializedAgent -> handlers_quiet cls.
Proof.
  intros [-> | ->]; [exact BaseAgent_handlers_quiet | exact SpecializedAgent_handlers_quiet].
Qed.

Lemma source_classes_respond cls :
  cls = BaseAgent \/ cls = SpecializedAgent -> handlers_respond cls.
Proof.
  intros [-> | ->];
    [exact BaseAgent_handlers_respond | exact SpecializedAgent_handlers_respond].
Qed.

(** X10. Every message that [process_message] of a [BaseAgent] or a
    [SpecializedAgent] returns, response or error, is sent by the agent to
    the sender of the incoming message, carries its correlation id, and has
    priority [MEDIUM] whatever the priority of the incoming message. *)
Theorem replies_go_back_to_the_sender cls self m s r :
  cls = BaseAgent \/ cls = SpecializedAgent ->
  fst (process_message cls self m s) = Returns (Some r) ->
  sender_id r = agent_id self /\
  receiver_id r = sender_id m /\
  correlation_id r = correlation_id m /\
  priority r = MEDIUM.
Proof.
  intros Hcls Hp.
  pose proof (process_message_cases cls self m s) as Hc.
  destruct (process_message_body cls self m s) as [[x|e] s1] eqn:Hb.
  - rewrite Hc in Hp. simpl in Hp. inversion Hp; subst x.
    apply process_message_body_returns in Hb.
    destruct Hcls as [-> | ->];
      destruct Hb as [[_ (s0 & s2 & H)]|[_ (s0 & s2 & H)]]; simpl in H.
    + discriminate H.
    + rewrite BaseAgent_handle_notification_none in H. discriminate H.
    + pose proof (SpecializedAgent_handle_request_priority _ _ _ _ _ H).
      apply SpecializedAgent_handle_request_kind in H. tauto.
    + rewrite BaseAgent_handle_notification_none in H. discriminate H.
  - destruct (isinstance_Exception e) eqn:He.
    + destruct (str_exn e) as [error|r0] eqn:Ht.
      * rewrite (process_message_caught _ _ _ _ _ _ _ Hb He Ht) in Hp.
        simpl in Hp. inversion Hp; subst r. repeat split.
      * rewrite Hc in Hp. discriminate Hp.
    + rewrite Hc in Hp. discriminate Hp.
Qed.

Lemma replies_go_back_to_the_sender_witness :
  sender_id
    {| sender_id := "agent-001";
       receiver_id := "user-001";
       message_type := ERROR;
       content := [ ("error", VStr EmptyString); ("original_message_id", VStr "c0ffee") ];
       timestamp := 0;
       correlation_id := "c0ffee";
       priority := MEDIUM |} = agent_id Examples.agent /\
  "user-001" = sender_id (Examples.message_of_kind REQUEST []) /\
  "c0ffee" = correlation_id (Examples.message_of_kind REQUEST []) /\
  MEDIUM = MEDIUM.
Proof.
  apply (replies_go_back_to_the_sender BaseAgent Examples.agent
           (Examples.message_of_kind REQUEST []) Examples.state0).
  - left. reflexivity.
  - reflexivity.
Defined.

(** X11. [process_message] of a [BaseAgent] or a [SpecializedAgent] only
    ever adds to the end of the memory: nothing, the incoming message, or
    the incoming message followed by the response it returns, which is
    then of kind [RESPONSE] (an error message is never stored).  A
    disabled memory stays disabled. *)
Theorem memory_only_grows cls self m s :
  cls = BaseAgent \/ cls = SpecializedAgent ->
  let human := HumanMessage (Py.str (VDict (content m))) in
  let s' := snd (process_message cls self m s) in
  (memory s = None -> memory s' = None) /\
  (memory s' = memory s \/
   memory s' = remembered human (memory s) \/
   exists r, fst (process_message cls self m s) = Returns (Some r) /\
             message_type r = RESPONSE /\
             memory s' = remembered (AIMessage (Py.str (VDict (content r))))
                           (remembered human (memory s))).
Proof.
  intros Hcls human s'. subst s'.
  assert (memory (snd (process_message cls self m s)) = memory s \/
          memory (snd (process_message cls self m s)) = remembered human (memory s) \/
          exists r, fst (process_message cls self m s) = Returns (Some r) /\
                    message_type r = RESPONSE /\
                    memory (snd (process_message cls self m s)) =
                    remembered (AIMessage (Py.str (VDict (content r))))
                      (remembered human (memory s))) as H.
  { rewrite process_message_memory.
    pose proof (process_message_body_memory cls self m s (source_classes_quiet _ Hcls)) as Hm.
    cbv zeta in Hm. fold human in Hm.
    destruct Hm as [[Hm _] | [[Hm _] | (r & Ho & Hm)]]; [now left | now right; left |].
    right; right. exists r.
    destruct (process_message_body cls self m s) as [o s1] eqn:Hb. simpl in *. subst o.
    split; [|split; [|exact Hm]].
    - unfold process_message. now rewrite (try_except_returns _ _ _ _ _ Hb).
    - pose proof (process_message_body_returns _ _ _ _ _ _ Hb) as Hr.
      destruct (source_classes_respond _ Hcls) as [Hreq Hnot].
      destruct Hr as [[_ (s0 & s2 & H)]|[_ (s0 & s2 & H)]]; eauto. }
  split; [|exact H].
  intros Hnone. rewrite Hnone in H. simpl in H.
  destruct H as [H | [H | (r & _ & _ & H)]]; exact H.
Qed.

Lemma memory_only_grows_witness :
  memory (snd (process_message BaseAgent Examples.agent Examples.bogus_request
                 (set_memory None Examples.state0))) = None.
Proof.
  apply (memory_only_grows BaseAgent Examples.agent Examples.bogus_request
           (set_memory None Examples.state0)).
  - left. reflexivity.
  - reflexivity.
Defined.

(** X12. [process_message] of a [BaseAgent] or a [SpecializedAgent] never
    touches the queue, the running flag, the loop tasks or the clock, and
    it only adds to the end of the log and of the record of tool calls. *)
Theorem process_message_leaves_the_loop_state cls self m s :
  cls = BaseAgent \/ cls = SpecializedAgent ->
  frame s (snd (process_message cls self m s)).
Proof.
  intros Hcls. apply process_message_frame, source_classes_quiet, Hcls.
Qed.

Lemma process_message_leaves_the_loop_state_witness :
  frame Examples.state0
    (snd (process_message SpecializedAgent Examples.echo_agent Examples.search_request
            Examples.state0)).
Proof.
  apply (process_message_leaves_the_loop_state SpecializedAgent Examples.echo_agent
           Examples.search_request Examples.state0).
  right. reflexivity.
Defined.

(** X13. Unless the input check of the safety wrapper returns [True],
    nothing of the message gets into the agent: whether the check returns
    [False] or fails with any exception, and whatever the class of the
    agent, memory, record of tool calls and queue are as before. *)
Theorem unaccepted_input_leaves_no_trace cls self sw m s :
  safety_wrapper self = Some sw ->
  validate_input sw m <> Returns true ->
  memory (snd (process_message cls self m s)) = memory s /\
  tool_calls (snd (process_message cls self m s)) = tool_calls s /\
  message_queue (snd (process_message cls self m s)) = message_queue s.
Proof.
  intros Hsw Hno.
  assert (exists e, process_message_body cls self m s = (Raises e, s)) as [e Hb].
  { unfold process_message_body. rewrite Hsw. unfold_M.
    destruct (validate_input sw m) as [[|]|e]; [congruence | |]; eexists; reflexivity. }
  destruct (isinstance_Exception e) eqn:He.
  - destruct (str_exn e) as [error|r] eqn:Ht.
    + rewrite (process_message_caught _ _ _ _ _ _ _ Hb He Ht). repeat split.
    + rewrite (process_message_unprintable _ _ _ _ _ _ _ Hb He Ht). repeat split.
  - unfold process_message. rewrite (try_except_escapes _ _ _ _ _ Hb He). repeat split.
Qed.

Lemma unaccepted_input_leaves_no_trace_witness :
  memory (snd (process_message SpecializedAgent Examples.throttled_agent
                 Examples.analyze_request Examples.state0)) = memory Examples.state0 /\
  tool_calls (snd (process_message SpecializedAgent Examples.throttled_agent
                     Examples.analyze_request Examples.state0)) = [] /\
  message_queue (snd (process_message SpecializedAgent Examples.throttled_agent
                        Examples.analyze_request Examples.state0)) = [].
Proof.
  apply (unaccepted_input_leaves_no_trace SpecializedAgent Examples.throttled_agent
           Examples.throttling_wrapper Examples.analyze_request Examples.state0).
  - reflexivity.
  - discriminate.
Defined.

(** ** Starting, stopping and the order of service *)

Lemma stop_eq self s :
  stop self s =
  (Returns tt, set_log (log s ++ [LogStopped (agent_id self)])%list (set_is_running false s)).
Proof. reflexivity. Qed.

Lemma _process_messages_except_quiet e : keeps quiet (_process_messages_except e).
Proof.
  unfold _process_messages_except.
  assert (keeps quiet (if isinstance_Exception e
                       then let! _ := await (str_exn e) in logger (LogErrorProcessing e)
                       else raise e)) as H.
  { destruct (isinstance_Exception e); [|apply keeps_raise, quiet_refl].
    apply keeps_bind; try apply quiet_trans; [apply keeps_await, quiet_refl|].
    intros _. apply logger_quiet. }
  destruct (exn_class e); try exact H. apply keeps_ret, quiet_refl.
Qed.

(** A pass of the loop leaves the flag and the tasks alone and takes the
    head off the queue, if there is one. *)
Lemma _process_messages_body_effect cls self s :
  handlers_quiet cls ->
  loop_tasks (snd (_process_messages_body cls self s)) = loop_tasks s /\
  is_running (snd (_process_messages_body cls self s)) = is_running s /\
  message_queue (snd (_process_messages_body cls self s)) = tl (message_queue s).
Proof.
  intros Hq. unfold _process_messages_body, queue_get. unfold_M.
  destruct (message_queue s) as [|m q] eqn:Hs.
  - simpl. rewrite Hs. repeat split.
  - pose proof (process_message_frame cls self m Hq (set_message_queue q s))
      as (Hf1 & Hf2 & Hf3 & _).
    destruct (process_message cls self m (set_message_queue q s)) as [[x|e] s'] eqn:Hp;
      simpl in Hf1, Hf2, Hf3.
    + simpl. repeat split; assumption.
    + destruct (_process_messages_except_quiet e s') as [(Hg1 & Hg2 & Hg3 & _) _].
      simpl. repeat split; congruence.
Qed.

(** A turn of a task at the [while] test is its step from there, followed,
    when that step suspends it, by the step that ends the wait. *)
Lemma task_turn_task_step cls self s :
  task_turn cls self s =
  match task_step cls self AtWhile s with
  | (Some InWaitFor, s1) => snd (task_step cls self InWaitFor s1)
  | (_, s1) => s1
  end.
Proof.
  unfold task_turn, task_step.
  destruct (is_running s) eqn:Hr; [|reflexivity].
  destruct (message_queue s) as [|m q] eqn:Hq.
  - simpl. rewrite ?Hr, ?Hq. unfold _process_messages_body, queue_get. unfold_M.
    rewrite Hq. reflexivity.
  - now destruct (_process_messages_body cls self s) as [[x|e] s'].
Qed.

(** C6, as the code has it. [start] has no guard: every call raises the
    flag and creates one more [_process_messages] task, whether or not the
    agent is running already, so [n] calls leave [n] more tasks.  Tasks
    that find the flag up and the queue empty all stay alive; and with the
    flag up a task of a [BaseAgent] or a [SpecializedAgent] ends exactly
    when an exception leaves its pass of the loop. *)
Theorem start_creates_a_task_each_time self s :
  fst (start self s) = Returns tt /\
  is_running (snd (start self s)) = true /\
  loop_tasks (snd (start self s)) = S (loop_tasks s) /\
  (forall n, loop_tasks (start_times self n s) = (n + loop_tasks s)%nat) /\
  (forall cls n k,
      message_queue s = [] ->
      loop_tasks (task_turns cls self k (start_times self (S n) s)) =
      (S n + loop_tasks s)%nat) /\
  (forall cls s1,
      cls = BaseAgent \/ cls = SpecializedAgent ->
      is_running s1 = true ->
      loop_tasks (task_turn cls self s1) =
      match fst (_process_messages_body cls self s1) with
      | Returns _ => loop_tasks s1
      | Raises _ => Nat.pred (loop_tasks s1)
      end).
Proof.
  repeat split.
  - intros n. apply start_times_loop_tasks.
  - intros cls n k Hq. rewrite task_turns_idle.
    + apply start_times_loop_tasks.
    + apply start_times_is_running.
    + now rewrite start_times_message_queue.
  - intros cls s1 Hcls Hr. unfold task_turn. rewrite Hr.
    destruct (_process_messages_body_effect cls self s1 (source_classes_quiet _ Hcls))
      as (Ht & _).
    destruct (_process_messages_body cls self s1) as [[x|e] s']; simpl in *;
      now rewrite Ht.
Qed.

(** C6, as stated, fails: on a fresh agent the first [start] leaves one
    task and the flag up; a second [start] leaves two tasks, and both are
    still there after each has had its turns. *)
Lemma second_start_creates_second_loop :
  let s1 := snd (start Examples.agent Examples.state0) in
  let s2 := snd (start Examples.agent s1) in
  is_running s1 = true /\ loop_tasks s1 = 1%nat /\
  is_running s2 = true /\ loop_tasks s2 = 2%nat /\
  loop_tasks (task_turns SpecializedAgent Examples.agent 4 s2) = 2%nat.
Proof. vm_compute. repeat split. Qed.

(** A task suspended in [wait_for] that is woken by a message takes it
    and finishes the pass, whatever the flag says. *)
Lemma task_step_woken cls self m q s :
  task_step cls self InWaitFor (set_message_queue (m :: q) s) =
  match process_message cls self m (set_message_queue q s) with
  | (Returns _, s2) => (Some AtWhile, s2)
  | (Raises e, s2) =>
      match _process_messages_except e s2 with
      | (Returns _, s3) => (Some AtWhile, s3)
      | (Raises _, s3) => (None, set_loop_tasks (Nat.pred (loop_tasks s3)) s3)
      end
  end.
Proof.
  unfold task_step, _process_messages_body, queue_get. unfold_M.
  cbn [message_queue set_message_queue].
  change (set_message_queue q (set_message_queue (m :: q) s)) with (set_message_queue q s).
  now destruct (process_message cls self m (set_message_queue q s)) as [[x|e] s2].
Qed.

(** X14. [stop] only lowers the flag and logs: it ends no task and takes
    nothing off the queue.  A task that stands at the [while] test after
    [stop] leaves the loop at once, returning normally, without taking a
    message off the queue.  A task that was suspended in [wait_for] when
    [stop] was called does not look at the flag until its wait is over: if
    nothing arrives it times out and is back at the [while] test, and a
    message that arrives in the meantime is still taken and processed. *)
Theorem stop_ends_the_loop_at_its_next_check cls self s :
  let s' := snd (stop self s) in
  is_running s' = false /\
  loop_tasks s' = loop_tasks s /\
  message_queue s' = message_queue s /\
  memory s' = memory s /\
  (forall fuel, _process_messages cls self (S fuel) s' = (Some (Returns tt), s')) /\
  task_step cls self AtWhile s' = (None, set_loop_tasks (Nat.pred (loop_tasks s)) s') /\
  (message_queue s = [] -> task_step cls self InWaitFor s' = (Some AtWhile, s')) /\
  (forall m q,
      task_step cls self InWaitFor (set_message_queue (m :: q) s') =
      match process_message cls self m (set_message_queue q s') with
      | (Returns _, s2) => (Some AtWhile, s2)
      | (Raises e, s2) =>
          match _process_messages_except e s2 with
          | (Returns _, s3) => (Some AtWhile, s3)
          | (Raises _, s3) => (None, set_loop_tasks (Nat.pred (loop_tasks s3)) s3)
          end
      end).
Proof.
  cbv zeta. rewrite stop_eq. simpl snd.
  split; [reflexivity|]. split; [reflexivity|]. split; [reflexivity|].
  split; [reflexivity|]. split; [reflexivity|]. split; [reflexivity|].
  split.
  - intros Hq. unfold task_step, _process_messages_body, queue_get. unfold_M.
    simpl. rewrite Hq. reflexivity.
  - intros m q. apply task_step_woken.
Qed.

(** X15. [start] after [stop], before the old task has had its turn,
    raises the flag again under the old task: the old task and the new one
    are both alive, and with the queue empty a turn of either ends
    neither. *)
Theorem restart_revives_the_old_loop cls self s :
  message_queue s = [] ->
  let s' := snd (start self (snd (stop self s))) in
  is_running s' = true /\
  loop_tasks s' = S (loop_tasks s) /\
  forall n, loop_tasks (task_turns cls self n s') = S (loop_tasks s).
Proof.
  intros Hq. cbv zeta. rewrite stop_eq, start_eq. simpl snd.
  split; [reflexivity|]. split; [reflexivity|].
  intros n. rewrite task_turns_idle; [reflexivity | reflexivity | exact Hq].
Qed.

Lemma restart_revives_the_old_loop_witness :
  loop_tasks
    (task_turns SpecializedAgent Examples.agent 3
       (snd (start Examples.agent
               (snd (stop Examples.agent
                       (snd (start Examples.agent Examples.state0))))))) = 2%nat.
Proof.
  apply (restart_revives_the_old_loop SpecializedAgent Examples.agent
           (snd (start Examples.agent Examples.state0))).
  reflexivity.
Defined.



(** X17. A failure of the pipeline does not end the loop, whatever the
    class of the agent: when [process_message] raises an [Exception] whose
    text can be taken, the [except] clauses of the loop catch it, log it
    (unless it is an [asyncio.TimeoutError], which is passed over in
    silence) and the pass returns normally with nothing else changed.
    With the queue empty a pass changes nothing.  What does leave the pass
    is an exception outside [Exception], and the failure of [str(e)] in
    the f-string of the log call when the exception has no text. *)
Theorem loop_survives_pipeline_failures cls self s :
  (message_queue s = [] -> _process_messages_body cls self s = (Returns tt, s)) /\
  (forall m q e s' text,
      message_queue s = m :: q ->
      process_message cls self m (set_message_queue q s) = (Raises e, s') ->
      isinstance_Exception e = true ->
      str_exn e = Returns text ->
      _process_messages_body cls self s =
      (Returns tt,
       match exn_class e with
       | TimeoutError => s'
       | _ => set_log (log s' ++ [LogErrorProcessing e])%list s'
       end)) /\
  (forall m q e s',
      message_queue s = m :: q ->
      process_message cls self m (set_message_queue q s) = (Raises e, s') ->
      isinstance_Exception e = false ->
      _process_messages_body cls self s = (Raises e, s')) /\
  (forall m q e s' r,
      message_queue s = m :: q ->
      process_message cls self m (set_message_queue q s) = (Raises e, s') ->
      isinstance_Exception e = true ->
      exn_class e <> TimeoutError ->
      str_exn e = Raises r ->
      _process_messages_body cls self s = (Raises r, s')).
Proof.
  unfold _process_messages_body, queue_get. unfold_M. split; [|split; [|split]].
  - intros ->. reflexivity.
  - intros m q e s' text -> Hp He Ht. rewrite Hp.
    unfold _process_messages_except. unfold_M. rewrite He, Ht.
    now destruct (exn_class e).
  - intros m q e s' -> Hp He. rewrite Hp.
    unfold _process_messages_except. unfold_M. rewrite He.
    destruct (exn_class e) eqn:Hc; try reflexivity.
    unfold isinstance_Exception in He. rewrite Hc in He. discriminate.
  - intros m q e s' r -> Hp He Hc Ht. rewrite Hp.
    unfold _process_messages_except. unfold_M. rewrite He, Ht.
    destruct (exn_class e); try reflexivity. now destruct Hc.
Qed.

Lemma loop_survives_pipeline_failures_witness :
  _process_messages_body SpecializedAgent Examples.garbled_agent
    (set_message_queue [Examples.analyze_request]
       (snd (start Examples.garbled_agent Examples.state0))) =
  (Returns tt,
   set_log [ LogStarted "agent-001";
             LogErrorProcessing
               (mkExn (OtherException "RuntimeError") (Some "cannot render") None) ]
     (snd (start Examples.garbled_agent Examples.state0))).
Proof.
  apply (proj1 (proj2 (loop_survives_pipeline_failures SpecializedAgent
                         Examples.garbled_agent
                         (set_message_queue [Examples.analyze_request]
                            (snd (start Examples.garbled_agent Examples.state0)))))
           Examples.analyze_request []
           (mkExn (OtherException "RuntimeError") (Some "cannot render") None)
           (snd (start Examples.garbled_agent Examples.state0))
           "cannot render");
    reflexivity.
Defined.
